(** * lightning-flash: the style-transfer task and the data-loading tutorial

    A shallow embedding of
    - [flash/vision/style_transfer/model.py] (the [Conv], [Residual] and
      [Transformer] modules and the [StyleTransfer] task), and
    - [flash_examples/flash_components/tutorial_1.py]
      (the [MultipleFoldersImageDataset]),
    followed by the properties established about them.

    Python exceptions are modelled by the [result] monad, object attributes
    and dictionaries by finite maps, and the libraries the code calls into
    (pystiche, torch, the operating system) by explicit interfaces. *)

From Stdlib Require Import ZArith QArith Qround Qcanon String Ascii List Lia.
From stdpp Require Import gmap strings list fin_maps.

Local Open Scope string_scope.
Local Open Scope list_scope.
Local Open Scope Z_scope.

(* ===================================================================== *)
(** * Part I: definitions                                                  *)
(* ===================================================================== *)

(** ** Exceptions and the error monad *)

Inductive exception : Type :=
| AssertionError
| FileNotFoundError (path : string)
| NotADirectoryError (path : string)
| KeyError (key : string)
| RuntimeError (msg : string)
| ValueError (msg : string)
| NotSupported (phase : string).

Inductive result (A : Type) : Type :=
| Ok (a : A)
| Raise (e : exception).

Arguments Ok {A} a.
Arguments Raise {A} e.

Definition bind {A B : Type} (r : result A) (k : A -> result B) : result B :=
  match r with
  | Ok a => k a
  | Raise e => Raise e
  end.

Declare Scope py_scope.
Delimit Scope py_scope with py.
Notation "x <- c1 ;; c2" := (bind c1 (fun x => c2))
  (at level 100, c1 at next level, right associativity) : py_scope.
Local Open Scope py_scope.

(** A Python [for] loop whose body may raise, threading the loop state. *)
Fixpoint for_each {A S : Type} (xs : list A) (body : A -> S -> result S) (s : S)
  : result S :=
  match xs with
  | [] => Ok s
  | x :: xs' => s' <- body x s ;; for_each xs' body s'
  end.

(** [enumerate(xs)]: the items paired with their positions, from [start]. *)
Fixpoint enumerate_from {A : Type} (start : nat) (xs : list A) : list (nat * A) :=
  match xs with
  | [] => []
  | x :: xs' => (start, x) :: enumerate_from (S start) xs'
  end.

Definition enumerate {A : Type} (xs : list A) : list (nat * A) :=
  enumerate_from 0 xs.

(** ** The keys of samples and batches *)

(** [DefaultDataKeys], with the members the two files use. *)
Inductive DefaultDataKeys : Type := INPUT | TARGET | METADATA.

#[global] Instance DefaultDataKeys_eq_dec : EqDecision DefaultDataKeys.
Proof. solve_decision. Defined.

Definition DefaultDataKeys_to_nat (k : DefaultDataKeys) : nat :=
  match k with INPUT => 0 | TARGET => 1 | METADATA => 2 end.

Definition DefaultDataKeys_of_nat (n : nat) : option DefaultDataKeys :=
  match n with
  | 0%nat => Some INPUT
  | 1%nat => Some TARGET
  | 2%nat => Some METADATA
  | _ => None
  end.

#[global] Instance DefaultDataKeys_countable : Countable DefaultDataKeys :=
  inj_countable DefaultDataKeys_to_nat DefaultDataKeys_of_nat
    (fun k => match k with
              | INPUT => eq_refl
              | TARGET => eq_refl
              | METADATA => eq_refl
              end).

Definition DefaultDataKeys_value (k : DefaultDataKeys) : string :=
  match k with INPUT => "input" | TARGET => "target" | METADATA => "metadata" end.

(** [d[k]] on a dictionary keyed by [DefaultDataKeys]. *)
Definition getitem {V : Type} (d : gmap DefaultDataKeys V) (k : DefaultDataKeys)
  : result V :=
  match d !! k with
  | Some v => Ok v
  | None => Raise (KeyError (DefaultDataKeys_value k))
  end.

(* --------------------------------------------------------------------- *)
(** ** tutorial_1.py                                                       *)
(* --------------------------------------------------------------------- *)

(** *** The operating system: directories and path joining *)

Inductive node : Type :=
| File
| Dir (entries : list string).

(** A file system maps a path to what is found there. *)
Abbreviation filesystem := (gmap string node).

Definition os_path_isdir (fs : filesystem) (path : string) : bool :=
  match fs !! path with
  | Some (Dir _) => true
  | _ => false
  end.

Definition os_listdir (fs : filesystem) (path : string) : result (list string) :=
  match fs !! path with
  | Some (Dir entries) => Ok entries
  | Some File => Raise (NotADirectoryError path)
  | None => Raise (FileNotFoundError path)
  end.

Definition sep : ascii := "/"%char.

Definition startswith_sep (s : string) : bool :=
  match s with
  | String c _ => Ascii.eqb c sep
  | EmptyString => false
  end.

Fixpoint endswith_sep (s : string) : bool :=
  match s with
  | EmptyString => false
  | String c EmptyString => Ascii.eqb c sep
  | String _ rest => endswith_sep rest
  end.

(** [os.path.join(a, b)] on POSIX. *)
Definition os_path_join (a b : string) : string :=
  if startswith_sep b then b
  else if (String.eqb a "" || endswith_sep a)%bool then (a ++ b)%string
  else (a ++ String sep b)%string.

(** *** Running stages and the dataset object *)

Inductive RunningStage : Type :=
| TRAINING | SANITY_CHECKING | VALIDATING | TESTING | PREDICTING | TUNING.

#[global] Instance RunningStage_eq_dec : EqDecision RunningStage.
Proof. solve_decision. Defined.

(** The values stored in samples and attributes. *)
Inductive value : Type :=
| VStr (s : string)
| VInt (n : Z).

#[global] Instance value_eq_dec : EqDecision value.
Proof. solve_decision. Defined.

Abbreviation sample := (gmap DefaultDataKeys value).

(** A [FlashDataset] instance: its running stage and the attributes set on it. *)
Record FlashDataset : Type := {
  running_stage : RunningStage;
  attributes : gmap string value
}.

Definition setattr (self : FlashDataset) (name : string) (v : value) : FlashDataset :=
  {| running_stage := running_stage self;
     attributes := <[name := v]> (attributes self) |}.

Definition hasattr (self : FlashDataset) (name : string) : bool :=
  bool_decide (is_Some (attributes self !! name)).

(** Modelled from the spec: the [training] property of [FlashDataset] (the
    base class is declared outside the files at hand) holds exactly in the
    training stage. *)
Definition training (self : FlashDataset) : bool :=
  bool_decide (running_stage self = TRAINING).

(** *** MultipleFoldersImageDataset *)

Definition load_data_sample (folder : string) (class_idx : nat) (p : string) : sample :=
  <[INPUT := VStr (os_path_join folder p)]>
    (<[TARGET := VInt (Z.of_nat class_idx)]> ∅).

(** [load_data]: the attribute assignment, then the list comprehension
    as its two nested loops. *)
Definition load_data (fs : filesystem) (self : FlashDataset) (folders : list string)
  : FlashDataset * result (list sample) :=
  let self :=
    if training self
    then setattr self "num_classes" (VInt (Z.of_nat (length folders)))
    else self in
  (self,
   for_each (enumerate folders)
     (fun '(class_idx, folder) acc =>
        entries <- os_listdir fs folder ;;
        for_each entries
          (fun p acc => Ok (acc ++ [load_data_sample folder class_idx p]))
          acc)
     []).

Definition predict_load_data_sample (predict_folder : string) (p : string) : sample :=
  <[INPUT := VStr (os_path_join predict_folder p)]> ∅.

Definition predict_load_data (fs : filesystem) (self : FlashDataset)
    (predict_folder : string) : FlashDataset * result (list sample) :=
  (self,
   if os_path_isdir fs predict_folder then
     entries <- os_listdir fs predict_folder ;;
     for_each entries
       (fun p acc => Ok (acc ++ [predict_load_data_sample predict_folder p]))
       []
   else Raise AssertionError).

(** *** The result of [load_data], folder by folder *)

(** What [os.listdir] yields for a directory (nothing for anything else). *)
Definition listing (fs : filesystem) (folder : string) : list string :=
  match fs !! folder with
  | Some (Dir entries) => entries
  | _ => []
  end.

(** The samples of the folders, block by block, numbered from [start]. *)
Fixpoint blocks (fs : filesystem) (start : nat) (folders : list string) : list sample :=
  match folders with
  | [] => []
  | folder :: rest =>
      map (load_data_sample folder start) (listing fs folder)
        ++ blocks fs (S start) rest
  end.

(* --------------------------------------------------------------------- *)
(** ** model.py: the network modules, on tensor shapes                     *)
(* --------------------------------------------------------------------- *)

(** The modules of [model.py] are assembled from torch layers. What
    matters of a layer here is the shape of its output, so the layers are
    run here on the shape [(N, C, H, W)] of a batch of images, with the
    size rules and the input checks of the torch documentation. *)

Record shape : Type := {
  batch_size : Z;
  channels : Z;
  height : Z;
  width : Z
}.

#[global] Instance shape_eq_dec : EqDecision shape.
Proof. solve_decision. Defined.

(** [torch.nn.functional.interpolate(input, scale_factor, mode)]: each
    spatial size becomes [floor(size * scale_factor)]. *)
Definition interpolate (input : shape) (scale_factor : Q) (mode : string)
  : result shape :=
  Ok {| batch_size := batch_size input;
        channels := channels input;
        height := Qfloor (inject_Z (height input) * scale_factor);
        width := Qfloor (inject_Z (width input) * scale_factor) |}.

(** [nn.ReflectionPad2d(padding)]: the padding must be smaller than the
    spatial sizes; each spatial size grows by twice the padding. *)
Record ReflectionPad2d : Type := { padding : Z }.

Definition ReflectionPad2d_forward (self : ReflectionPad2d) (input : shape)
  : result shape :=
  if ((padding self <? height input) && (padding self <? width input))%bool then
    Ok {| batch_size := batch_size input;
          channels := channels input;
          height := height input + 2 * padding self;
          width := width input + 2 * padding self |}
  else Raise (RuntimeError "Padding size should be less than the corresponding input dimension").

(** [nn.Conv2d(in_channels, out_channels, kernel_size, stride)], without
    padding of its own: size [floor((size - kernel_size) / stride) + 1]. *)
Record Conv2d : Type := {
  conv_in_channels : Z;
  conv_out_channels : Z;
  conv_kernel_size : Z;
  conv_stride : Z
}.

Definition Conv2d_forward (self : Conv2d) (input : shape) : result shape :=
  if negb (channels input =? conv_in_channels self) then
    Raise (RuntimeError "expected input to have in_channels channels")
  else if ((height input <? conv_kernel_size self)
           || (width input <? conv_kernel_size self))%bool then
    Raise (RuntimeError "Kernel size can't be greater than actual input size")
  else
    Ok {| batch_size := batch_size input;
          channels := conv_out_channels self;
          height := (height input - conv_kernel_size self) / conv_stride self + 1;
          width := (width input - conv_kernel_size self) / conv_stride self + 1 |}.

(** [nn.InstanceNorm2d(num_features, affine=True)]: keeps the shape, and
    refuses a single spatial element. *)
Record InstanceNorm2d : Type := { num_features : Z; affine : bool }.

Definition InstanceNorm2d_forward (self : InstanceNorm2d) (input : shape)
  : result shape :=
  if height input * width input =? 1 then
    Raise (ValueError "Expected more than 1 spatial element when training")
  else Ok input.

(** [nn.ReLU()]. *)
Record ReLU : Type := { inplace : bool }.

Definition ReLU_forward (self : ReLU) (input : shape) : result shape := Ok input.

(** [output + input] on tensors: the shapes are broadcast together. *)
Definition broadcast_size (a b : Z) : result Z :=
  if a =? b then Ok a
  else if a =? 1 then Ok b
  else if b =? 1 then Ok a
  else Raise (RuntimeError "The size of tensor a must match the size of tensor b").

Definition tensor_add (a b : shape) : result shape :=
  n <- broadcast_size (batch_size a) (batch_size b) ;;
  c <- broadcast_size (channels a) (channels b) ;;
  h <- broadcast_size (height a) (height b) ;;
  w <- broadcast_size (width a) (width b) ;;
  Ok {| batch_size := n; channels := c; height := h; width := w |}.

(** *** Interpolate *)

Record Interpolate : Type := {
  scale_factor : Q;
  mode : string
}.

Definition Interpolate_init (scale_factor : Q) (mode : string) : Interpolate :=
  {| scale_factor := scale_factor; mode := mode |}.

Definition Interpolate_forward (self : Interpolate) (input : shape) : result shape :=
  interpolate input (scale_factor self) (mode self).

(** *** Conv *)

Record Conv : Type := {
  upsample : option Interpolate;
  pad : ReflectionPad2d;
  conv : Conv2d;
  norm : option InstanceNorm2d;
  activation : option ReLU
}.

(** [Conv.__init__]; [kernel_size // 2] is floor division. *)
Definition Conv_init (in_channels out_channels kernel_size : Z)
    (stride : Z) (upsample norm activation : bool) : Conv :=
  {| upsample :=
       if upsample then Some (Interpolate_init (inject_Z stride) "nearest") else None;
     pad := {| padding := kernel_size / 2 |};
     conv := {| conv_in_channels := in_channels;
                conv_out_channels := out_channels;
                conv_kernel_size := kernel_size;
                conv_stride := if upsample then 1 else stride |};
     norm :=
       if norm then Some {| num_features := out_channels; affine := true |} else None;
     activation := if activation then Some {| inplace := false |} else None |}.

(** [Conv.forward]. A module object is always true in a condition, so
    [if self.upsample:] asks whether the attribute is [None]. *)
Definition Conv_forward (self : Conv) (input : shape) : result shape :=
  input <- match upsample self with
           | Some up => Interpolate_forward up input
           | None => Ok input
           end ;;
  padded <- ReflectionPad2d_forward (pad self) input ;;
  output <- Conv2d_forward (conv self) padded ;;
  output <- match norm self with
            | Some n => InstanceNorm2d_forward n output
            | None => Ok output
            end ;;
  output <- match activation self with
            | Some a => ReLU_forward a output
            | None => Ok output
            end ;;
  Ok output.

(** *** Residual *)

Record Residual : Type := {
  conv1 : Conv;
  conv2 : Conv
}.

Definition Residual_init (channels : Z) : Residual :=
  {| conv1 := Conv_init channels channels 3 1 false true true;
     conv2 := Conv_init channels channels 3 1 false true false |}.

Definition Residual_forward (self : Residual) (input : shape) : result shape :=
  inner <- Conv_forward (conv1 self) input ;;
  output <- Conv_forward (conv2 self) inner ;;
  tensor_add output input.

(** *** nn.Sequential *)

Definition Sequential_forward {T : Type} (modules : list (T -> result T)) (input : T)
  : result T :=
  for_each modules (fun m x => m x) input.

(** *** Transformer *)

(** The four sub-modules of a [Transformer], each by its [forward]. The
    record is generic in what a module is run on: shapes or values. *)
Record Transformer (T : Type) : Type := {
  encoder : T -> result T;
  decoder : T -> result T;
  preprocessor : T -> result T;
  postprocessor : T -> result T
}.

Arguments encoder {T} _ _.
Arguments decoder {T} _ _.
Arguments preprocessor {T} _ _.
Arguments postprocessor {T} _ _.

Definition Transformer_forward {T : Type} (self : Transformer T) (input : T)
  : result T :=
  input <- preprocessor self input ;;
  encoded <- encoder self input ;;
  output <- decoder self encoded ;;
  postprocessor self output.

(** [Transformer.__init__], on shapes: scaling by a number keeps the shape. *)
Definition Transformer_shapes : Transformer shape :=
  {| encoder := Sequential_forward
       [ Conv_forward (Conv_init 3 32 9 1 false true true);
         Conv_forward (Conv_init 32 64 3 2 false true true);
         Conv_forward (Conv_init 64 128 3 2 false true true);
         Residual_forward (Residual_init 128);
         Residual_forward (Residual_init 128);
         Residual_forward (Residual_init 128);
         Residual_forward (Residual_init 128);
         Residual_forward (Residual_init 128) ];
     decoder := Sequential_forward
       [ Conv_forward (Conv_init 128 64 3 2 true true true);
         Conv_forward (Conv_init 64 32 3 2 true true true);
         Conv_forward (Conv_init 32 3 9 1 false false false) ];
     preprocessor := Ok;
     postprocessor := Ok |}.

(* --------------------------------------------------------------------- *)
(** ** model.py: the value ranges, in exact arithmetic                     *)
(* --------------------------------------------------------------------- *)

(** A tensor by its entries, as exact rationals. *)
Record tensor : Type := {
  tensor_shape : list Z;
  tensor_data : list Qc
}.

Definition tensor_mul_scalar (t : tensor) (c : Qc) : tensor :=
  {| tensor_shape := tensor_shape t;
     tensor_data := map (fun x => (x * c)%Qc) (tensor_data t) |}.

Definition tensor_div_scalar (t : tensor) (c : Qc) : tensor :=
  {| tensor_shape := tensor_shape t;
     tensor_data := map (fun x => (x / c)%Qc) (tensor_data t) |}.

Definition c255 : Qc := Q2Qc (inject_Z 255).

Definition FloatToUint8Range_forward (input : tensor) : tensor :=
  tensor_mul_scalar input c255.

Definition Uint8ToFloatRange_forward (input : tensor) : tensor :=
  tensor_div_scalar input c255.

(** [Transformer.__init__], on values, for given convolution stacks (their
    weights are drawn at random when the module is built). *)
Definition Transformer_init (encoder decoder : tensor -> result tensor)
  : Transformer tensor :=
  {| encoder := encoder;
     decoder := decoder;
     preprocessor := fun input => Ok (FloatToUint8Range_forward input);
     postprocessor := fun input => Ok (Uint8ToFloatRange_forward input) |}.

(** Kleisli composition: [g] after [f]. *)
Definition kcompose {A B C : Type} (g : B -> result C) (f : A -> result B)
  : A -> result C :=
  fun a => b <- f a ;; g b.

(* --------------------------------------------------------------------- *)
(** ** model.py: the StyleTransfer task                                    *)
(* --------------------------------------------------------------------- *)

(** *** The libraries behind the task

    What [StyleTransfer] calls in pystiche and torch, by signature. Calls
    that depend on their argument being well-formed (a file to read, a
    layer to find in an encoder, tensors that fit a network) may raise. *)
Class Libraries : Type := {
  MultiLayerEncoder : Type;
  Encoder : Type;
  Operator : Type;
  LossDict : Type;
  pyobject : Type;
  (** [enc.vgg16_multi_layer_encoder()] *)
  vgg16_multi_layer_encoder : MultiLayerEncoder;
  (** [multi_layer_encoder.extract_encoder(layer)] *)
  extract_encoder : MultiLayerEncoder -> string -> result Encoder;
  (** [ops.FeatureReconstructionOperator(encoder, score_weight=...)] *)
  FeatureReconstructionOperator : Encoder -> Q -> Operator;
  (** The local subclass [GramOperator(encoder, score_weight=...)] *)
  GramOperator : Encoder -> Q -> Operator;
  (** [ops.MultiLayerEncodingOperator(multi_layer_encoder, layers,
      get_encoding_op, layer_weights=..., score_weight=...)] *)
  MultiLayerEncodingOperator :
    MultiLayerEncoder -> list string -> (Encoder -> Q -> Operator) ->
    string -> Q -> result Operator;
  (** [pystiche.image.read_image(path)] *)
  read_image : string -> result tensor;
  (** Calling a perceptual loss made of a content and a style operator,
      with the content and style images set on it, on an output image. *)
  PerceptualLoss_call :
    Operator -> Operator -> option tensor -> option tensor -> tensor ->
    result LossDict;
  (** [loss_dict.total()] *)
  LossDict_total : LossDict -> tensor;
  (** [torch.optim.Adam] *)
  Adam : pyobject;
  (** The convolution stacks of a newly built [Transformer()]. *)
  new_encoder : tensor -> result tensor;
  new_decoder : tensor -> result tensor
}.

Section Task.

Context `{Libraries}.

(** An [nn.Module], by its [forward]. *)
Definition nn_Module : Type := tensor -> result tensor.

(** [Transformer()] *)
Definition Transformer_new : nn_Module :=
  Transformer_forward (Transformer_init new_encoder new_decoder).

(** *** loss.PerceptualLoss: the two operators and the images set on it *)

Record PerceptualLoss : Type := {
  content_loss : Operator;
  style_loss : Operator;
  content_image : option tensor;
  style_image : option tensor
}.

Definition PerceptualLoss_init (content_loss style_loss : Operator) : PerceptualLoss :=
  {| content_loss := content_loss; style_loss := style_loss;
     content_image := None; style_image := None |}.

Definition set_style_image (self : PerceptualLoss) (image : tensor) : PerceptualLoss :=
  {| content_loss := content_loss self; style_loss := style_loss self;
     content_image := content_image self; style_image := Some image |}.

Definition set_content_image (self : PerceptualLoss) (image : tensor) : PerceptualLoss :=
  {| content_loss := content_loss self; style_loss := style_loss self;
     content_image := Some image; style_image := style_image self |}.

Definition PerceptualLoss_forward (self : PerceptualLoss) (output_image : tensor)
  : result LossDict :=
  PerceptualLoss_call (content_loss self) (style_loss self)
    (content_image self) (style_image self) output_image.

(** *** The task object *)

(** The attributes of a [StyleTransfer] that its methods read: the model
    handed to the base class, and [self.perceptual_loss]. *)
Record StyleTransfer : Type := {
  model : nn_Module;
  perceptual_loss : PerceptualLoss
}.

(** *** StyleTransfer.__init__ *)

(** The values a caller can pass, and the base class can be given. *)
Inductive pyarg : Type :=
| PNone
| PStr (s : string)
| PTensor (t : tensor)
| PModule (m : nn_Module)
| PEncoder (e : MultiLayerEncoder)
| POperator (o : Operator)
| PLoss (l : PerceptualLoss)
| PObject (o : pyobject)
| PFloat (q : Q).

Definition optional {A : Type} (inj : A -> pyarg) (o : option A) : pyarg :=
  match o with
  | Some a => inj a
  | None => PNone
  end.

(** The parameters of [__init__], defaults filled in for what was left out. *)
Record InitArgs : Type := {
  arg_style_image : string + tensor;
  arg_model : option nn_Module;
  arg_multi_layer_encoder : option MultiLayerEncoder;
  arg_content_loss : option Operator;
  arg_style_loss : option Operator;
  arg_optimizer : pyobject;
  arg_optimizer_kwargs : option pyobject;
  arg_scheduler : option pyobject;
  arg_scheduler_kwargs : option pyobject;
  arg_learning_rate : Q;
  arg_serializer : option pyobject
}.

(** The call [StyleTransfer(...)] as the caller wrote it, by keyword. *)
Definition call_arguments (a : InitArgs) : list (string * pyarg) :=
  [ ("style_image",
     match arg_style_image a with inl path => PStr path | inr t => PTensor t end);
    ("model", optional PModule (arg_model a));
    ("multi_layer_encoder", optional PEncoder (arg_multi_layer_encoder a));
    ("content_loss", optional POperator (arg_content_loss a));
    ("style_loss", optional POperator (arg_style_loss a));
    ("optimizer", PObject (arg_optimizer a));
    ("optimizer_kwargs", optional PObject (arg_optimizer_kwargs a));
    ("scheduler", optional PObject (arg_scheduler a));
    ("scheduler_kwargs", optional PObject (arg_scheduler_kwargs a));
    ("learning_rate", PFloat (arg_learning_rate a));
    ("serializer", optional PObject (arg_serializer a)) ].

Definition default_multi_layer_encoder : MultiLayerEncoder :=
  vgg16_multi_layer_encoder.

Definition default_content_loss (multi_layer_encoder : option MultiLayerEncoder)
  : result Operator :=
  let multi_layer_encoder :=
    match multi_layer_encoder with
    | None => default_multi_layer_encoder
    | Some e => e
    end in
  let content_layer := "relu2_2" in
  content_encoder <- extract_encoder multi_layer_encoder content_layer ;;
  let content_weight := 1e5%Q in
  Ok (FeatureReconstructionOperator content_encoder content_weight).

Definition default_style_loss (multi_layer_encoder : option MultiLayerEncoder)
  : result Operator :=
  let multi_layer_encoder :=
    match multi_layer_encoder with
    | None => default_multi_layer_encoder
    | Some e => e
    end in
  let style_layers := ["relu1_2"; "relu2_2"; "relu3_3"; "relu4_3"] in
  let style_weight := 1e10%Q in
  MultiLayerEncodingOperator multi_layer_encoder style_layers
    (fun encoder layer_weight => GramOperator encoder layer_weight)
    "sum" style_weight.

(** [__init__]: the keyword arguments of [super().__init__(...)] as they are
    at that call, and the object once [__init__] is through. The
    bookkeeping of [save_hyperparameters], the building of the default
    encoder and of the loss object, the base class's own [__init__] and
    [set_style_image] are taken to return: what follows says what
    [__init__] builds when it goes through, not every way it can fail. *)
Definition StyleTransfer_init (a : InitArgs)
  : result (list (string * pyarg) * StyleTransfer) :=
  style_image <- match arg_style_image a with
                 | inl path => read_image path
                 | inr image => Ok image
                 end ;;
  let model :=
    match arg_model a with
    | None => Transformer_new
    | Some m => m
    end in
  let multi_layer_encoder :=
    match arg_multi_layer_encoder a with
    | None => default_multi_layer_encoder
    | Some e => e
    end in
  content_loss <- match arg_content_loss a with
                  | None => default_content_loss (Some multi_layer_encoder)
                  | Some op => Ok op
                  end ;;
  style_loss <- match arg_style_loss a with
                | None => default_style_loss (Some multi_layer_encoder)
                | Some op => Ok op
                end ;;
  let perceptual_loss := PerceptualLoss_init content_loss style_loss in
  let super_init_kwargs :=
    [ ("model", PModule model);
      ("loss_fn", PLoss perceptual_loss);
      ("optimizer", PObject (arg_optimizer a));
      ("optimizer_kwargs", optional PObject (arg_optimizer_kwargs a));
      ("scheduler", optional PObject (arg_scheduler a));
      ("scheduler_kwargs", optional PObject (arg_scheduler_kwargs a));
      ("learning_rate", PFloat (arg_learning_rate a));
      ("serializer", optional PObject (arg_serializer a)) ] in
  Ok (super_init_kwargs,
      {| model := model;
         perceptual_loss := set_style_image perceptual_loss style_image |}).

(** The reading of "forwards its constructor arguments unchanged": each
    argument of the call is among the keyword arguments of the base class,
    under its name and with its value. *)
Definition forwards_unchanged (a : InitArgs) (kwargs : list (string * pyarg)) : Prop :=
  forall (name : string) (v : pyarg),
    In (name, v) (call_arguments a) -> In (name, v) kwargs.

(** *** The steps *)

(** What a step returns: a dictionary whose entries are a scalar tensor or
    a dictionary of scalar tensors. *)
Inductive stepval : Type :=
| Scalar (t : tensor)
| Logs (d : gmap string tensor).

(** Modelled from the spec: [Task.forward] of the base class (declared
    outside the files at hand), the "forward pass": the task's model applied
    to the input. *)
Definition Task_forward (self : StyleTransfer) (x : tensor) : result tensor :=
  model self x.

(** [StyleTransfer.step], for a given [forward] behind [self(batch)]; a
    method returns the object as it has become, and what the call returned
    or raised. *)
Definition step (forward : StyleTransfer -> tensor -> result tensor)
    (self : StyleTransfer) (batch : tensor) (batch_idx : Z)
  : StyleTransfer * result (gmap string stepval) :=
  let input_image := batch in
  let self := {| model := model self;
                 perceptual_loss :=
                   set_content_image (perceptual_loss self) input_image |} in
  (self,
   output_image <- forward self batch ;;
   loss_dict <- PerceptualLoss_forward (perceptual_loss self) output_image ;;
   let loss := LossDict_total loss_dict in
   let logs : gmap string tensor := <["perceptual_loss" := loss]> ∅ in
   Ok (<["loss" := Scalar loss]> (<["logs" := Logs logs]> ∅))).

(** Modelled from the spec: [Task.training_step] of the base class (declared
    outside the files at hand). By the training step contract it runs the
    task's [step] on what it is given and returns the loss scalar together
    with the logging dictionary. *)
Definition Task_training_step (self : StyleTransfer) (batch : tensor) (batch_idx : Z)
  : StyleTransfer * result (gmap string stepval) :=
  step Task_forward self batch batch_idx.

(** [StyleTransfer.training_step], for a given [training_step] of the base
    class. *)
Definition training_step {R : Type}
    (super_training_step : StyleTransfer -> tensor -> Z -> StyleTransfer * result R)
    (self : StyleTransfer) (batch : gmap DefaultDataKeys tensor) (batch_idx : Z)
  : StyleTransfer * result R :=
  match getitem batch INPUT with
  | Ok input => super_training_step self input batch_idx
  | Raise e => (self, Raise e)
  end.

(** Modelled from the spec: [raise_not_supported] (declared in [_utils],
    outside the files at hand) raises the "not supported" signal for the
    phase it is given, and does not return. *)
Definition raise_not_supported (phase : string) : result unit :=
  Raise (NotSupported phase).

(** [validation_step] and [test_step]: the call, then the end of the body,
    where a Python function returns [None]. *)
Definition validation_step {B : Type} (self : StyleTransfer) (batch : B)
    (batch_idx : Z) : StyleTransfer * result unit :=
  (self, _ <- raise_not_supported "validation" ;; Ok tt).

Definition test_step {B : Type} (self : StyleTransfer) (batch : B)
    (batch_idx : Z) : StyleTransfer * result unit :=
  (self, _ <- raise_not_supported "test" ;; Ok tt).

End Task.

(** *** A stand-in for the libraries, for concrete runs *)

Definition example_image : tensor :=
  {| tensor_shape := [1; 1; 1; 2]; tensor_data := [Q2Qc 0; Q2Qc 1] |}.

#[local] Instance example_libraries : Libraries := {|
  MultiLayerEncoder := list string;
  Encoder := string;
  Operator := list (string * Q);
  LossDict := tensor;
  pyobject := string;
  vgg16_multi_layer_encoder := ["relu1_2"; "relu2_2"; "relu3_3"; "relu4_3"];
  extract_encoder := fun layers layer =>
    if bool_decide (layer ∈ layers) then Ok layer else Raise (ValueError layer);
  FeatureReconstructionOperator := fun encoder w => [(encoder, w)];
  GramOperator := fun encoder w => [(encoder, w)];
  MultiLayerEncodingOperator := fun layers style_layers op layer_weights w =>
    for_each style_layers
      (fun layer acc =>
         if bool_decide (layer ∈ layers) then Ok (acc ++ op layer w)
         else Raise (ValueError layer))
      [];
  read_image := fun path =>
    if String.eqb path "style.jpg" then Ok example_image
    else Raise (FileNotFoundError path);
  PerceptualLoss_call := fun content style content_image style_image output =>
    match content_image, style_image with
    | Some _, Some _ => Ok output
    | _, _ => Raise (RuntimeError "no target image")
    end;
  LossDict_total := fun loss => loss;
  Adam := "Adam";
  new_encoder := Ok;
  new_decoder := Ok
|}.

Definition example_args : InitArgs :=
  {| arg_style_image := inl "style.jpg";
     arg_model := None;
     arg_multi_layer_encoder := None;
     arg_content_loss := None;
     arg_style_loss := None;
     arg_optimizer := Adam;
     arg_optimizer_kwargs := None;
     arg_scheduler := None;
     arg_scheduler_kwargs := None;
     arg_learning_rate := 1e-3%Q;
     arg_serializer := None |}.

(** A small file system for concrete runs: two class folders and a file. *)
Definition example_fs : filesystem :=
  <["data/ants" := Dir ["a1.jpg"; "a2.jpg"]]>
    (<["data/bees" := Dir ["b1.jpg"]]>
       (<["data/readme.txt" := File]> ∅)).

Definition example_dataset (stage : RunningStage) : FlashDataset :=
  {| running_stage := stage; attributes := ∅ |}.

(** A task over the stand-in libraries, and two batches that agree on
    their [INPUT] entry only. *)
Definition example_task : StyleTransfer :=
  {| model := fun image => Ok image;
     perceptual_loss :=
       set_style_image
         (PerceptualLoss_init [("relu2_2", 1e5%Q)] [("relu1_2", 1e10%Q)])
         example_image |}.

Definition example_labels (a b : Z) : tensor :=
  {| tensor_shape := [2]; tensor_data := [Q2Qc (inject_Z a); Q2Qc (inject_Z b)] |}.

Definition example_batch1 : gmap DefaultDataKeys tensor :=
  <[INPUT := example_image]> (<[TARGET := example_labels 0 1]> ∅).

Definition example_batch2 : gmap DefaultDataKeys tensor :=
  <[INPUT := example_image]>
    (<[TARGET := example_labels 1 0]> (<[METADATA := example_labels 5 7]> ∅)).

(* --------------------------------------------------------------------- *)
(** ** tutorial_1.py: loading a sample, and the transforms                 *)
(* --------------------------------------------------------------------- *)

(** *** load_sample *)

(** What a sample holds once it is loaded: what [load_data] put there, an
    opened image, or the size of one. *)
Inductive pyvalue (Image : Type) : Type :=
| Plain (v : value)
| Opened (image : Image)
| Size (size : Z * Z).

Arguments Plain {Image} v.
Arguments Opened {Image} image.
Arguments Size {Image} size.

(** PIL, by signature: [Image.open(fp)] and the [size] of an image. *)
Class Pillow : Type := {
  Image : Type;
  Image_open : pyvalue Image -> result Image;
  Image_size : Image -> Z * Z
}.

(** [load_sample]: the sample is changed in place and returned. *)
Definition load_sample `{Pillow} (sample : gmap DefaultDataKeys (pyvalue Image))
  : result (gmap DefaultDataKeys (pyvalue Image)) :=
  fp <- getitem sample INPUT ;;
  image <- Image_open fp ;;
  let sample := <[INPUT := Opened image]> sample in
  let sample := <[METADATA := Size (Image_size image)]> sample in
  Ok sample.

(** A sample of [load_data] or [predict_load_data], as [load_sample] gets it. *)
Definition as_loaded `{Pillow} (s : sample) : gmap DefaultDataKeys (pyvalue Image) :=
  Plain <$> s.

(** *** The transforms *)

(** The torchvision transforms the tutorial builds. *)
Inductive transform : Type :=
| Resize (size : Z * Z)
| ToTensor
| RandomRotation (degrees : Q * Q).

(** [T.RandomRotation(degrees)] for a single number: the range is
    [[-degrees, degrees]], and a negative number is refused. *)
Definition T_RandomRotation (degrees : Q) : result transform :=
  if Qle_bool 0 degrees then Ok (RandomRotation ((- degrees)%Q, degrees))
  else Raise (ValueError "If degrees is a single number, it must be positive.").

(** What a placement is mapped to. *)
Inductive callable : Type :=
| ApplyToKeys (keys : DefaultDataKeys) (Compose : list transform)
| default_collate.

(** [PreTransformPlacement], with the members the tutorial uses. *)
Inductive PreTransformPlacement : Type := PER_SAMPLE_TRANSFORM | COLLATE.

#[global] Instance PreTransformPlacement_eq_dec : EqDecision PreTransformPlacement.
Proof. solve_decision. Defined.

#[global] Instance PreTransformPlacement_countable : Countable PreTransformPlacement :=
  inj_countable
    (fun p => match p with PER_SAMPLE_TRANSFORM => 0%nat | COLLATE => 1%nat end)
    (fun n => match n with
              | 0%nat => Some PER_SAMPLE_TRANSFORM
              | 1%nat => Some COLLATE
              | _ => None
              end)
    (fun p => match p with
              | PER_SAMPLE_TRANSFORM => eq_refl
              | COLLATE => eq_refl
              end).

(** A [PreTransform] instance, by its running stage. *)
Record PreTransform : Type := { transform_running_stage : RunningStage }.

(** Modelled from the spec: the [training] property of [PreTransform] (the
    base class is declared outside the files at hand) holds exactly in the
    training stage. *)
Definition PreTransform_training (self : PreTransform) : bool :=
  bool_decide (transform_running_stage self = TRAINING).

(** [ImageBaseTransform.configure_transforms] *)
Definition ImageBaseTransform_configure_transforms (self : PreTransform)
    (image_size : Z) : result (gmap PreTransformPlacement callable) :=
  Ok (<[PER_SAMPLE_TRANSFORM :=
          ApplyToKeys INPUT [Resize (image_size, image_size); ToTensor]]>
        (<[COLLATE := default_collate]> ∅)).

(** [ImageRandomRotationTransform.configure_transforms] *)
Definition ImageRandomRotationTransform_configure_transforms (self : PreTransform)
    (image_size : Z) (rotation : Q)
  : result (gmap PreTransformPlacement callable) :=
  let transforms := [Resize (image_size, image_size); ToTensor] in
  transforms <- (if PreTransform_training self
                 then r <- T_RandomRotation rotation ;; Ok (transforms ++ [r])
                 else Ok transforms) ;;
  Ok (<[PER_SAMPLE_TRANSFORM := ApplyToKeys INPUT transforms]>
        (<[COLLATE := default_collate]> ∅)).

(** A stand-in for PIL, for concrete runs: every path opens as an image of
    500 by 375, and nothing else opens. *)
#[local] Instance example_pillow : Pillow := {|
  Image := string;
  Image_open := fun fp =>
    match fp with
    | Plain (VStr path) => Ok path
    | _ => Raise (ValueError "cannot identify image file")
    end;
  Image_size := fun _ => (500, 375)
|}.

(** The class index of a sample moved up by [n]. *)
Definition shift_target (n : nat) (s : sample) : sample :=
  alter (fun v => match v with
                  | VInt c => VInt (c + Z.of_nat n)
                  | VStr _ => v
                  end) TARGET s.

(* ===================================================================== *)
(** * Part II: properties                                                  *)
(* ===================================================================== *)

(** ** Loops *)

Lemma for_each_append {A B : Type} (f : A -> B) (xs : list A) (acc : list B) :
  for_each xs (fun x acc => Ok (acc ++ [f x])) acc = Ok (acc ++ map f xs).
Proof.
  revert acc. induction xs as [|x xs IH]; intros acc; simpl.
  - by rewrite app_nil_r.
  - rewrite IH. by rewrite <- app_assoc.
Qed.

(** ** tutorial_1.py *)

Section Tutorial.

Variable fs : filesystem.

Lemma os_listdir_isdir (folder : string) :
  os_path_isdir fs folder = true -> os_listdir fs folder = Ok (listing fs folder).
Proof.
  unfold os_path_isdir, os_listdir, listing.
  destruct (fs !! folder) as [[|entries]|]; done.
Qed.

Lemma load_data_loop_blocks (folders : list string) (start : nat) (acc : list sample) :
  Forall (fun folder => os_path_isdir fs folder = true) folders ->
  for_each (enumerate_from start folders)
    (fun '(class_idx, folder) acc =>
       entries <- os_listdir fs folder ;;
       for_each entries
         (fun p acc => Ok (acc ++ [load_data_sample folder class_idx p]))
         acc)
    acc
  = Ok (acc ++ blocks fs start folders).
Proof.
  intros Hdirs. revert start acc.
  induction Hdirs as [|folder rest Hdir _ IH]; intros start acc; simpl.
  - by rewrite app_nil_r.
  - rewrite (os_listdir_isdir _ Hdir). simpl.
    rewrite for_each_append. simpl. rewrite IH. by rewrite <- app_assoc.
Qed.

Lemma load_data_sample_target (folder : string) (c : nat) (p : string) :
  load_data_sample folder c p !! TARGET = Some (VInt (Z.of_nat c)).
Proof. done. Qed.

Lemma load_data_sample_input (folder : string) (c : nat) (p : string) :
  load_data_sample folder c p !! INPUT = Some (VStr (os_path_join folder p)).
Proof. done. Qed.

Lemma blocks_length (folders : list string) (start : nat) :
  length (blocks fs start folders)
  = sum_list (map (fun folder => length (listing fs folder)) folders).
Proof.
  revert start. induction folders as [|folder rest IH]; intros start; simpl.
  - done.
  - rewrite length_app, length_map, IH. done.
Qed.

(** Every sample of [blocks] comes from one file of one folder, and carries
    that folder's position. *)
Lemma blocks_lookup (folders : list string) (start k : nat) (s : sample) :
  blocks fs start folders !! k = Some s ->
  exists (i : nat) (folder p : string),
    folders !! i = Some folder /\ p ∈ listing fs folder /\
    s = load_data_sample folder (start + i) p.
Proof.
  revert start k. induction folders as [|folder rest IH]; intros start k; simpl.
  - by rewrite lookup_nil.
  - intros Hk. apply lookup_app_Some in Hk as [Hk | [Hlen Hk]].
    + apply list_lookup_fmap_Some in Hk as (p & -> & Hp).
      exists 0%nat, folder, p. split; [done|]. split.
      * apply list_elem_of_lookup. eauto.
      * by rewrite Nat.add_0_r.
    + apply IH in Hk as (i & folder' & p & Hi & Hp & ->).
      exists (S i), folder', p. split; [done|]. split; [done|].
      f_equal. lia.
Qed.

(** Every file of every folder has its sample in [blocks]. *)
Lemma blocks_elem (folders : list string) (start i : nat) (folder p : string) :
  folders !! i = Some folder -> p ∈ listing fs folder ->
  load_data_sample folder (start + i) p ∈ blocks fs start folders.
Proof.
  revert start i. induction folders as [|first rest IH]; intros start i Hi Hp.
  - by rewrite lookup_nil in Hi.
  - simpl. apply elem_of_app. destruct i as [|i]; simpl in Hi.
    + injection Hi as ->. left. rewrite Nat.add_0_r.
      apply list_elem_of_fmap. eauto.
    + right. replace (start + S i)%nat with (S start + i)%nat by lia.
      by apply IH.
Qed.

(** Class indices never decrease along [blocks]. *)
Lemma blocks_monotone (folders : list string) (start k1 k2 : nat) (s1 s2 : sample)
    (c1 c2 : Z) :
  (k1 <= k2)%nat ->
  blocks fs start folders !! k1 = Some s1 ->
  blocks fs start folders !! k2 = Some s2 ->
  s1 !! TARGET = Some (VInt c1) ->
  s2 !! TARGET = Some (VInt c2) ->
  Z.of_nat start <= c1 <= c2.
Proof.
  revert start k1 k2. induction folders as [|folder rest IH]; intros start k1 k2; simpl.
  - by rewrite lookup_nil.
  - intros Hle H1 H2 Ht1 Ht2.
    apply lookup_app_Some in H1 as [H1 | [Hlen1 H1]].
    + apply list_lookup_fmap_Some in H1 as (p1 & -> & Hp1).
      rewrite load_data_sample_target in Ht1. injection Ht1 as <-.
      apply lookup_app_Some in H2 as [H2 | [Hlen2 H2]].
      * apply list_lookup_fmap_Some in H2 as (p2 & -> & Hp2).
        rewrite load_data_sample_target in Ht2. injection Ht2 as <-. lia.
      * apply blocks_lookup in H2 as (i & f & p & _ & _ & ->).
        rewrite load_data_sample_target in Ht2. injection Ht2 as <-. lia.
    + apply lookup_app_Some in H2 as [H2 | [Hlen2 H2]].
      * apply lookup_lt_Some in H2. lia.
      * assert (Z.of_nat (S start) <= c1 <= c2); [|lia].
        eapply (IH (S start) (k1 - _)%nat (k2 - _)%nat); eauto. lia.
Qed.

End Tutorial.

(** C3. For a non-empty list of folders (each of them a directory),
    [load_data] returns one sample per file listed in each folder; every
    sample made from the folder at position [i] has [TARGET] equal to [i];
    and the samples of folder [i] all come before those of folder [i+1]. *)
Theorem load_data_enumerates_folders (fs : filesystem) (self : FlashDataset)
    (folders : list string) :
  folders <> [] ->
  Forall (fun folder => os_path_isdir fs folder = true) folders ->
  exists samples : list sample,
    (load_data fs self folders).2 = Ok samples /\
    samples = blocks fs 0 folders /\
    length samples
      = sum_list (map (fun folder => length (listing fs folder)) folders) /\
    (forall (k : nat) (s : sample), samples !! k = Some s ->
       exists (i : nat) (folder p : string),
         folders !! i = Some folder /\ p ∈ listing fs folder /\
         s !! INPUT = Some (VStr (os_path_join folder p)) /\
         s !! TARGET = Some (VInt (Z.of_nat i)) /\
         dom s = {[INPUT; TARGET]}) /\
    (forall (i : nat) (folder p : string),
       folders !! i = Some folder -> p ∈ listing fs folder ->
       load_data_sample folder i p ∈ samples) /\
    (forall (k1 k2 : nat) (s1 s2 : sample) (i : Z),
       samples !! k1 = Some s1 -> samples !! k2 = Some s2 ->
       s1 !! TARGET = Some (VInt i) -> s2 !! TARGET = Some (VInt (i + 1)) ->
       (k1 < k2)%nat).
Proof.
  intros _ Hdirs. exists (blocks fs 0 folders).
  split.
  { unfold load_data, enumerate. simpl.
    by rewrite (load_data_loop_blocks fs folders 0 [] Hdirs). }
  split; [done|]. split; [apply blocks_length|]. split; [|split].
  - intros k s Hk.
    apply blocks_lookup in Hk as (i & folder & p & Hi & Hp & ->).
    exists i, folder, p. split; [done|]. split; [done|].
    split; [done|]. split; [done|].
    unfold load_data_sample. rewrite !dom_insert_L. set_solver.
  - intros i folder p Hi Hp. by apply (blocks_elem fs folders 0 i).
  - intros k1 k2 s1 s2 i H1 H2 Ht1 Ht2.
    destruct (decide (k1 < k2)%nat) as [|Hge]; [done|]. exfalso.
    assert (Hle : (k2 <= k1)%nat) by lia.
    pose proof (blocks_monotone fs folders 0 k2 k1 s2 s1 _ _ Hle H2 H1 Ht2 Ht1).
    lia.
Qed.

Lemma load_data_enumerates_folders_witness :
  exists samples : list sample,
    (load_data example_fs (example_dataset VALIDATING) ["data/ants"; "data/bees"]).2
      = Ok samples /\
    samples = blocks example_fs 0 ["data/ants"; "data/bees"] /\
    length samples = 3%nat.
Proof.
  assert (Hne : ["data/ants"; "data/bees"] <> @nil string) by discriminate.
  assert (Hdirs : Forall (fun folder => os_path_isdir example_fs folder = true)
                    ["data/ants"; "data/bees"]) by (repeat constructor).
  destruct (load_data_enumerates_folders example_fs (example_dataset VALIDATING)
              ["data/ants"; "data/bees"] Hne Hdirs)
    as (samples & Hrun & Heq & Hlen & _).
  exists samples. rewrite Hlen. repeat split; done.
Defined.

(** The first listing that fails ends [load_data] with that error. *)
Example load_data_missing_folder :
  (load_data example_fs (example_dataset TRAINING) ["data/ants"; "data/wasps"]).2
  = Raise (FileNotFoundError "data/wasps").
Proof. reflexivity. Qed.

(** C4. [load_data] sets [num_classes] (to the number of folders) exactly
    when the running stage is training; in any other stage it leaves the
    dataset as it was, so [num_classes] stays unset. *)
Theorem load_data_num_classes_only_when_training (fs : filesystem)
    (self : FlashDataset) (folders : list string) :
  let self' := (load_data fs self folders).1 in
  (running_stage self = TRAINING ->
     self' = setattr self "num_classes" (VInt (Z.of_nat (length folders))) /\
     attributes self' !! "num_classes" = Some (VInt (Z.of_nat (length folders))) /\
     (forall name : string, name <> "num_classes" ->
        attributes self' !! name = attributes self !! name)) /\
  (running_stage self <> TRAINING -> self' = self) /\
  running_stage self' = running_stage self /\
  (hasattr self "num_classes" = false ->
     (hasattr self' "num_classes" = true <-> running_stage self = TRAINING)).
Proof.
  unfold load_data, training. simpl.
  destruct (decide (running_stage self = TRAINING)) as [Htrain | Hother].
  - rewrite (bool_decide_eq_true_2 _ Htrain). simpl.
    split; [intros _; split; [done|]; split|].
    + apply lookup_insert_eq.
    + intros name Hname. by apply lookup_insert_ne.
    + split; [done|]. split; [done|]. intros _. split; [done|]. intros _.
      unfold hasattr, setattr. simpl. apply bool_decide_eq_true_2.
      rewrite lookup_insert_eq. eauto.
  - rewrite (bool_decide_eq_false_2 _ Hother).
    split; [done|]. split; [done|]. split; [done|].
    intros Hunset. rewrite Hunset. split; [discriminate | done].
Qed.

(** C10. [predict_load_data] fails its assertion whenever the argument is
    not an existing directory; for a directory it returns one sample per
    entry, each holding the [INPUT] key only, and leaves the dataset as it
    was. *)
Theorem predict_load_data_input_only (fs : filesystem) (self : FlashDataset)
    (predict_folder : string) :
  (os_path_isdir fs predict_folder = false ->
     (predict_load_data fs self predict_folder).2 = Raise AssertionError) /\
  (os_path_isdir fs predict_folder = true ->
     exists samples : list sample,
       (predict_load_data fs self predict_folder).2 = Ok samples /\
       samples = map (predict_load_data_sample predict_folder)
                     (listing fs predict_folder) /\
       length samples = length (listing fs predict_folder) /\
       Forall (fun s : sample =>
                 dom s = {[INPUT]} /\ s !! TARGET = None /\
                 exists p : string, p ∈ listing fs predict_folder /\
                   s !! INPUT = Some (VStr (os_path_join predict_folder p)))
              samples) /\
  (predict_load_data fs self predict_folder).1 = self.
Proof.
  unfold predict_load_data. simpl. split; [|split; [|done]].
  - by intros ->.
  - intros Hdir. rewrite Hdir, (os_listdir_isdir fs _ Hdir). simpl.
    rewrite for_each_append. simpl.
    eexists. split; [done|]. split; [done|]. split; [apply length_map|].
    apply Forall_forall. intros s Hs.
    apply list_elem_of_fmap in Hs as (p & -> & Hp).
    unfold predict_load_data_sample. split; [|split].
    + rewrite dom_insert_L. set_solver.
    + done.
    + exists p. split; [done|]. apply lookup_insert_eq.
Qed.

(** ** model.py: shapes through [Conv] and [Residual] *)

Lemma Qfloor_mul_inject_Z (a b : Z) : Qfloor (inject_Z a * inject_Z b) = (a * b)%Z.
Proof.
  rewrite <- inject_Z_mult. apply Qfloor_Z.
Qed.

Lemma interpolate_integer_factor (x : shape) (s : Z) (m : string) :
  interpolate x (inject_Z s) m
  = Ok {| batch_size := batch_size x; channels := channels x;
          height := height x * s; width := width x * s |}.
Proof. unfold interpolate. by rewrite !Qfloor_mul_inject_Z. Qed.

Lemma interpolate_factor_one (x : shape) (m : string) :
  interpolate x (inject_Z 1) m = Ok x.
Proof.
  rewrite interpolate_integer_factor, !Z.mul_1_r. by destruct x.
Qed.

(** A [Conv] that upsamples is the interpolation followed by the same
    [Conv] without upsampling and with stride 1. *)
Lemma Conv_forward_upsample (cin cout k stride : Z) (n a : bool) (x : shape) :
  Conv_forward (Conv_init cin cout k stride true n a) x
  = (up <- interpolate x (inject_Z stride) "nearest" ;;
     Conv_forward (Conv_init cin cout k 1 false n a) up).
Proof. reflexivity. Qed.

(** Without upsampling and with stride 1, an odd kernel keeps the sizes. *)
Lemma Conv_forward_plain_odd (cin cout m : Z) (n a : bool) (x y : shape) :
  0 <= m ->
  Conv_forward (Conv_init cin cout (2 * m + 1) 1 false n a) x = Ok y ->
  y = {| batch_size := batch_size x; channels := cout;
         height := height x; width := width x |}.
Proof.
  intros Hm. unfold Conv_forward, Conv_init. simpl.
  unfold ReflectionPad2d_forward, Conv2d_forward. simpl.
  replace ((2 * m + 1) / 2) with m by (apply Z.div_unique with 1; lia).
  destruct ((m <? height x) && (m <? width x))%bool eqn:Hpad; simpl; [|done].
  destruct (negb (channels x =? cin)) eqn:Hch; simpl; [done|].
  destruct ((height x + 2 * m <? 2 * m + 1) || (width x + 2 * m <? 2 * m + 1))%bool
    eqn:Hk; simpl; [done|].
  rewrite !Z.div_1_r.
  replace (height x + 2 * m - (2 * m + 1) + 1) with (height x) by lia.
  replace (width x + 2 * m - (2 * m + 1) + 1) with (width x) by lia.
  unfold InstanceNorm2d_forward, ReLU_forward.
  destruct n; simpl.
  - destruct (height x * width x =? 1); simpl; [done|].
    destruct a; simpl; congruence.
  - destruct a; simpl; congruence.
Qed.

(** ... and it does return, when the padding fits, the channels agree and
    normalisation has more than one spatial element to work with. *)
Lemma Conv_forward_plain_odd_returns (cin cout m : Z) (n a : bool) (x : shape) :
  0 <= m -> m < height x -> m < width x -> channels x = cin ->
  (n = true -> height x * width x <> 1) ->
  Conv_forward (Conv_init cin cout (2 * m + 1) 1 false n a) x
  = Ok {| batch_size := batch_size x; channels := cout;
          height := height x; width := width x |}.
Proof.
  intros Hm Hh Hw Hc Hn. unfold Conv_forward, Conv_init. simpl.
  unfold ReflectionPad2d_forward, Conv2d_forward. simpl.
  replace ((2 * m + 1) / 2) with m by (apply Z.div_unique with 1; lia).
  rewrite (proj2 (Z.ltb_lt _ _) Hh), (proj2 (Z.ltb_lt _ _) Hw). simpl.
  rewrite (proj2 (Z.eqb_eq _ _) Hc). simpl.
  rewrite (proj2 (Z.ltb_ge _ _)) by lia.
  rewrite (proj2 (Z.ltb_ge _ _)) by lia. simpl.
  rewrite !Z.div_1_r.
  replace (height x + 2 * m - (2 * m + 1) + 1) with (height x) by lia.
  replace (width x + 2 * m - (2 * m + 1) + 1) with (width x) by lia.
  unfold InstanceNorm2d_forward, ReLU_forward.
  destruct n; simpl.
  - rewrite (proj2 (Z.eqb_neq _ _) (Hn eq_refl)). simpl. by destruct a.
  - by destruct a.
Qed.

Lemma odd_kernel_size (k : Z) :
  0 < k -> Z.odd k = true -> exists m : Z, 0 <= m /\ k = 2 * m + 1.
Proof.
  intros Hk Hodd. exists (k / 2).
  pose proof (Z.div_mod k 2 ltac:(lia)) as Hdiv.
  rewrite Zmod_odd, Hodd in Hdiv.
  split; [apply Z.div_pos; lia | lia].
Qed.

Lemma tensor_add_same (x : shape) : tensor_add x x = Ok x.
Proof.
  unfold tensor_add, broadcast_size. rewrite !Z.eqb_refl. simpl. by destruct x.
Qed.

Lemma Residual_forward_returns (ch : Z) (x : shape) :
  channels x = ch -> 2 <= height x -> 2 <= width x ->
  Residual_forward (Residual_init ch) x = Ok x.
Proof.
  intros Hc Hh Hw. unfold Residual_forward, Residual_init. cbn [conv1 conv2].
  change 3 with (2 * 1 + 1).
  rewrite (Conv_forward_plain_odd_returns ch ch 1 true true x)
    by (try done; nia).
  cbn [bind].
  rewrite (Conv_forward_plain_odd_returns ch ch 1 true false)
    by (cbn [height width channels]; try done; nia).
  cbn [bind batch_size height width]. subst ch. destruct x; apply tensor_add_same.
Qed.

(** C9. A [Conv] built with [upsample=True] interpolates its input by the
    requested stride and then convolves with stride 1. For an odd kernel
    size and stride 1, upsampling or not, the reflection padding of
    [kernel_size // 2] makes up for what the convolution takes off, so the
    spatial sizes of output and input agree, and [Residual.forward] adds a
    tensor of its input's shape to its input. *)
Theorem Conv_keeps_size_so_Residual_adds :
  (forall (cin cout k stride : Z) (n a : bool),
     let c := Conv_init cin cout k stride true n a in
     upsample c = Some (Interpolate_init (inject_Z stride) "nearest") /\
     conv_stride (conv c) = 1 /\
     forall x : shape,
       let enlarged := {| batch_size := batch_size x; channels := channels x;
                          height := height x * stride;
                          width := width x * stride |} in
       interpolate x (inject_Z stride) "nearest" = Ok enlarged /\
       Conv_forward c x
       = (up <- interpolate x (inject_Z stride) "nearest" ;;
          Conv_forward (Conv_init cin cout k 1 false n a) up) /\
       Conv_forward c x = Conv_forward (Conv_init cin cout k 1 false n a) enlarged /\
       (0 < k -> Z.odd k = true ->
        forall y : shape, Conv_forward c x = Ok y ->
          height y = height x * stride /\ width y = width x * stride)) /\
  (forall (cin cout k : Z) (up n a : bool) (x : shape),
     0 < k -> Z.odd k = true ->
     let c := Conv_init cin cout k 1 up n a in
     padding (pad c) = k / 2 /\
     (forall y : shape, Conv_forward c x = Ok y ->
        height y = height x /\ width y = width x) /\
     (k / 2 < height x -> k / 2 < width x -> channels x = cin ->
      (n = true -> height x * width x <> 1) ->
      Conv_forward c x
      = Ok {| batch_size := batch_size x; channels := cout;
              height := height x; width := width x |})) /\
  (forall (ch : Z) (x : shape),
     channels x = ch -> 2 <= height x -> 2 <= width x ->
     let r := Residual_init ch in
     exists inner output : shape,
       Conv_forward (conv1 r) x = Ok inner /\
       Conv_forward (conv2 r) inner = Ok output /\
       output = x /\
       Residual_forward r x = Ok x).
Proof.
  split; [|split].
  - intros cin cout k stride n a c. split; [done|]. split; [done|].
    intros x enlarged.
    assert (Hup : interpolate x (inject_Z stride) "nearest" = Ok enlarged)
      by apply interpolate_integer_factor.
    assert (Hrun : Conv_forward c x
                   = Conv_forward (Conv_init cin cout k 1 false n a) enlarged).
    { subst c. by rewrite Conv_forward_upsample, Hup. }
    split; [exact Hup|]. split; [apply Conv_forward_upsample|].
    split; [exact Hrun|].
    intros Hk Hodd y Hy. rewrite Hrun in Hy.
    destruct (odd_kernel_size k Hk Hodd) as (m & Hm & ->).
    apply Conv_forward_plain_odd in Hy as ->; done.
  - intros cin cout k up n a x Hk Hodd c. split; [done|].
    destruct (odd_kernel_size k Hk Hodd) as (m & Hm & ->).
    assert (Hhalf : (2 * m + 1) / 2 = m)
      by (symmetry; apply Z.div_unique with 1; lia).
    assert (Hplain : forall z, Conv_forward c z
              = Conv_forward (Conv_init cin cout (2 * m + 1) 1 false n a) z).
    { intros z. subst c. destruct up; [|done].
      rewrite Conv_forward_upsample, interpolate_factor_one. done. }
    split.
    + intros y Hy. rewrite Hplain in Hy.
      apply Conv_forward_plain_odd in Hy as ->; done.
    + rewrite Hhalf. intros Hh Hw Hc Hn. rewrite Hplain.
      by apply Conv_forward_plain_odd_returns.
  - intros ch x Hc Hh Hw r. subst r.
    exists x, x. unfold Residual_init. cbn [conv1 conv2].
    change 3 with (2 * 1 + 1).
    rewrite (Conv_forward_plain_odd_returns ch ch 1 true true x)
      by (try done; nia).
    rewrite (Conv_forward_plain_odd_returns ch ch 1 true false x)
      by (try done; nia).
    subst ch. split; [by destruct x|]. split; [by destruct x|].
    split; [done|]. by apply (Residual_forward_returns (channels x)).
Qed.

(** The whole network on shapes: an image batch whose sides are multiples
    of four comes back in its own shape. *)
Example Transformer_shapes_256 :
  Transformer_forward Transformer_shapes
    {| batch_size := 4; channels := 3; height := 256; width := 256 |}
  = Ok {| batch_size := 4; channels := 3; height := 256; width := 256 |}.
Proof. vm_compute. reflexivity. Qed.

(** A residual block cannot pad a single row of pixels. *)
Example Residual_forward_one_row :
  Residual_forward (Residual_init 128)
    {| batch_size := 1; channels := 128; height := 1; width := 8 |}
  = Raise (RuntimeError "Padding size should be less than the corresponding input dimension").
Proof. reflexivity. Qed.

(** ** model.py: the value ranges *)

Lemma c255_nonzero : c255 <> Q2Qc 0.
Proof. intros H. discriminate H. Qed.

Lemma mul_div_255 (x : Qc) : (x * c255 / c255)%Qc = x.
Proof. field. apply c255_nonzero. Qed.

Lemma div_mul_255 (x : Qc) : (x / c255 * c255)%Qc = x.
Proof. field. apply c255_nonzero. Qed.

Lemma Uint8ToFloatRange_after_FloatToUint8Range (t : tensor) :
  Uint8ToFloatRange_forward (FloatToUint8Range_forward t) = t.
Proof.
  destruct t as [sh data].
  unfold Uint8ToFloatRange_forward, FloatToUint8Range_forward,
    tensor_div_scalar, tensor_mul_scalar. simpl. f_equal.
  rewrite map_map. rewrite <- (map_id data) at 2.
  apply map_ext. intros x. apply mul_div_255.
Qed.

Lemma FloatToUint8Range_after_Uint8ToFloatRange (t : tensor) :
  FloatToUint8Range_forward (Uint8ToFloatRange_forward t) = t.
Proof.
  destruct t as [sh data].
  unfold Uint8ToFloatRange_forward, FloatToUint8Range_forward,
    tensor_div_scalar, tensor_mul_scalar. simpl. f_equal.
  rewrite map_map. rewrite <- (map_id data) at 2.
  apply map_ext. intros x. apply div_mul_255.
Qed.

(** C8. [FloatToUint8Range] followed by [Uint8ToFloatRange] is the identity
    on every tensor (times 255 then divided by 255, in exact arithmetic),
    and so is the other order: the preprocessor and the postprocessor of a
    [Transformer] are inverses of each other, and [Transformer.forward] is
    the postprocessor after the decoder after the encoder after the
    preprocessor. *)
Theorem Transformer_range_round_trip :
  (forall t : tensor, Uint8ToFloatRange_forward (FloatToUint8Range_forward t) = t) /\
  (forall t : tensor, FloatToUint8Range_forward (Uint8ToFloatRange_forward t) = t) /\
  (forall (enc dec : tensor -> result tensor) (t : tensor),
     let T := Transformer_init enc dec in
     preprocessor T t = Ok (FloatToUint8Range_forward t) /\
     postprocessor T t = Ok (Uint8ToFloatRange_forward t) /\
     kcompose (postprocessor T) (preprocessor T) t = Ok t /\
     kcompose (preprocessor T) (postprocessor T) t = Ok t /\
     Transformer_forward T t
     = kcompose (postprocessor T)
         (kcompose (decoder T) (kcompose (encoder T) (preprocessor T))) t).
Proof.
  split; [apply Uint8ToFloatRange_after_FloatToUint8Range|].
  split; [apply FloatToUint8Range_after_Uint8ToFloatRange|].
  intros enc dec t T. split; [done|]. split; [done|].
  unfold kcompose, Transformer_forward. simpl.
  rewrite Uint8ToFloatRange_after_FloatToUint8Range,
    FloatToUint8Range_after_Uint8ToFloatRange.
  split; [done|]. split; [done|].
  destruct (enc (FloatToUint8Range_forward t)) as [e|]; simpl; [|done].
  by destruct (dec e).
Qed.

(** ** model.py: the StyleTransfer task *)

Section TaskProperties.

Context `{Libraries}.

Lemma bind_Ok_inv {A B : Type} (r : result A) (k : A -> result B) (b : B) :
  bind r k = Ok b -> exists a : A, r = Ok a /\ k a = Ok b.
Proof. destruct r as [a|e]; simpl; [eauto | discriminate]. Qed.

(** What [__init__] does when it goes through. *)
Lemma StyleTransfer_init_Ok (a : InitArgs) (kwargs : list (string * pyarg))
    (self : StyleTransfer) :
  StyleTransfer_init a = Ok (kwargs, self) ->
  exists (image : tensor) (content style : Operator),
    match arg_style_image a with
    | inl path => read_image path
    | inr image => Ok image
    end = Ok image /\
    match arg_content_loss a with
    | None => default_content_loss
                (Some (default default_multi_layer_encoder (arg_multi_layer_encoder a)))
    | Some op => Ok op
    end = Ok content /\
    match arg_style_loss a with
    | None => default_style_loss
                (Some (default default_multi_layer_encoder (arg_multi_layer_encoder a)))
    | Some op => Ok op
    end = Ok style /\
    model self = default Transformer_new (arg_model a) /\
    perceptual_loss self
    = set_style_image (PerceptualLoss_init content style) image /\
    kwargs =
      [ ("model", PModule (model self));
        ("loss_fn", PLoss (PerceptualLoss_init content style));
        ("optimizer", PObject (arg_optimizer a));
        ("optimizer_kwargs", optional PObject (arg_optimizer_kwargs a));
        ("scheduler", optional PObject (arg_scheduler a));
        ("scheduler_kwargs", optional PObject (arg_scheduler_kwargs a));
        ("learning_rate", PFloat (arg_learning_rate a));
        ("serializer", optional PObject (arg_serializer a)) ].
Proof.
  unfold StyleTransfer_init. intros Hinit.
  apply bind_Ok_inv in Hinit as (image & Himage & Hinit).
  apply bind_Ok_inv in Hinit as (content & Hcontent & Hinit).
  apply bind_Ok_inv in Hinit as (style & Hstyle & Hinit).
  injection Hinit as <- <-.
  exists image, content, style. cbn [model perceptual_loss].
  split; [done|].
  split; [by destruct (arg_multi_layer_encoder a)|].
  split; [by destruct (arg_multi_layer_encoder a)|].
  split; [by destruct (arg_model a)|]. done.
Qed.

(** [step] takes its content image from the batch, whatever was set before. *)
Lemma step_overwrites_content_image
    (forward : StyleTransfer -> tensor -> result tensor)
    (self : StyleTransfer) (stale : option tensor)
    (batch : tensor) (batch_idx : Z) :
  step forward
       {| model := model self;
          perceptual_loss :=
            {| content_loss := content_loss (perceptual_loss self);
               style_loss := style_loss (perceptual_loss self);
               content_image := stale;
               style_image := style_image (perceptual_loss self) |} |}
       batch batch_idx
  = step forward self batch batch_idx.
Proof. reflexivity. Qed.

End TaskProperties.

(** C1. Whatever the batch and the batch index, [validation_step] and
    [test_step] raise the "not supported" signal (through
    [raise_not_supported]) and return no value. *)
Theorem validation_and_test_step_not_supported `{Libraries} {B : Type}
    (self : StyleTransfer) (batch : B) (batch_idx : Z) :
  validation_step self batch batch_idx = (self, Raise (NotSupported "validation")) /\
  test_step self batch batch_idx = (self, Raise (NotSupported "test")) /\
  (forall v : unit, (validation_step self batch batch_idx).2 <> Ok v) /\
  (forall v : unit, (test_step self batch batch_idx).2 <> Ok v).
Proof. repeat split; discriminate. Qed.

(** C2. What [training_step] yields depends on the batch through its
    [INPUT] entry only: two batches with the same [INPUT] entry, whatever
    their [TARGET] and other entries, give the same outcome (the same loss
    or the same exception) on the same task, for any base class. And
    [step], which computes the loss, reads from the task only its model,
    the two loss operators and the style image, whatever the forward pass:
    the content image of an earlier step and the batch index have no part
    in it. *)
Theorem training_step_depends_on_input_only `{Libraries} {R : Type}
    (super_training_step : StyleTransfer -> tensor -> Z -> StyleTransfer * result R)
    (self : StyleTransfer) :
  (forall (batch1 batch2 : gmap DefaultDataKeys tensor) (batch_idx : Z),
     batch1 !! INPUT = batch2 !! INPUT ->
     training_step super_training_step self batch1 batch_idx
     = training_step super_training_step self batch2 batch_idx) /\
  (forall (forward : StyleTransfer -> tensor -> result tensor)
          (other : StyleTransfer) (input : tensor) (batch_idx other_idx : Z),
     model other = model self ->
     content_loss (perceptual_loss other) = content_loss (perceptual_loss self) ->
     style_loss (perceptual_loss other) = style_loss (perceptual_loss self) ->
     style_image (perceptual_loss other) = style_image (perceptual_loss self) ->
     step forward other input other_idx = step forward self input batch_idx).
Proof.
  split.
  - intros batch1 batch2 batch_idx Hinput.
    unfold training_step, getitem. by rewrite Hinput.
  - intros forward other input batch_idx other_idx Hmodel Hcontent Hstyle Himage.
    rewrite <- (step_overwrites_content_image forward self
                  (content_image (perceptual_loss other)) input batch_idx).
    rewrite <- Hmodel, <- Hcontent, <- Hstyle, <- Himage.
    by destruct other as [m []].
Qed.

(** C6. On a batch with an [INPUT] entry, [training_step] runs the model on
    that entry, evaluates the perceptual loss (the content and the style
    operator, with the input as content image) on the output, and returns
    a dictionary with the loss scalar under ["loss"] and, under ["logs"],
    a dictionary that maps ["perceptual_loss"] to the same scalar. *)
Theorem training_step_returns_loss_and_logs `{Libraries}
    (self : StyleTransfer) (batch : gmap DefaultDataKeys tensor) (batch_idx : Z)
    (input output_image : tensor) (loss_dict : LossDict) :
  batch !! INPUT = Some input ->
  model self input = Ok output_image ->
  PerceptualLoss_call (content_loss (perceptual_loss self))
    (style_loss (perceptual_loss self)) (Some input)
    (style_image (perceptual_loss self)) output_image = Ok loss_dict ->
  exists (self' : StyleTransfer) (output : gmap string stepval)
         (logs : gmap string tensor),
    training_step Task_training_step self batch batch_idx = (self', Ok output) /\
    step Task_forward self input batch_idx = (self', Ok output) /\
    output !! "loss" = Some (Scalar (LossDict_total loss_dict)) /\
    output !! "logs" = Some (Logs logs) /\
    logs !! "perceptual_loss" = Some (LossDict_total loss_dict) /\
    dom output = {["loss"; "logs"]} /\
    dom logs = {["perceptual_loss"]} /\
    model self' = model self /\
    perceptual_loss self' = set_content_image (perceptual_loss self) input.
Proof.
  intros Hinput Hforward Hloss.
  unfold training_step, getitem, Task_training_step, step. rewrite Hinput.
  unfold Task_forward, PerceptualLoss_forward. cbn [model perceptual_loss].
  rewrite Hforward. cbn [bind set_content_image content_loss style_loss
    content_image style_image].
  rewrite Hloss. cbn [bind].
  eexists _, _, _. split; [reflexivity|]. split; [reflexivity|].
  split; [apply lookup_insert_eq|].
  split; [rewrite lookup_insert_ne by done; apply lookup_insert_eq|].
  split; [apply lookup_insert_eq|].
  split; [rewrite !dom_insert_L; set_solver|].
  split; [rewrite !dom_insert_L; set_solver|]. done.
Qed.

Lemma training_step_depends_on_input_only_witness :
  training_step Task_training_step example_task example_batch1 0
  = training_step Task_training_step example_task example_batch2 0.
Proof.
  apply (proj1 (training_step_depends_on_input_only Task_training_step
                  example_task) example_batch1 example_batch2 0).
  reflexivity.
Defined.

Lemma training_step_returns_loss_and_logs_witness :
  exists (self' : StyleTransfer) (output : gmap string stepval),
    training_step Task_training_step example_task example_batch1 3
    = (self', Ok output) /\
    output !! "loss" = Some (Scalar example_image).
Proof.
  destruct (training_step_returns_loss_and_logs example_task example_batch1 3
              example_image example_image example_image)
    as (self' & output & logs & Hrun & _ & Hloss & _).
  - reflexivity.
  - vm_compute. reflexivity.
  - reflexivity.
  - exists self', output. split; [exact Hrun | exact Hloss].
Defined.

(** C5, as stated, fails: with the style image given as a path and
    everything else left to its default, [__init__] goes through, and the
    base class is given no ["style_image"] argument. *)
Lemma init_keeps_style_image_to_itself :
  exists (kwargs : list (string * pyarg)) (self : StyleTransfer),
    StyleTransfer_init example_args = Ok (kwargs, self) /\
    ~ forwards_unchanged example_args kwargs.
Proof.
  eexists _, _. split; [vm_compute; reflexivity|].
  intros Hforwards.
  specialize (Hforwards "style_image" (PStr "style.jpg") (or_introl eq_refl)).
  repeat (destruct Hforwards as [Hforwards | Hforwards]; [discriminate|]).
  destruct Hforwards.
Qed.

(** C5, amended. When [__init__] goes through, the base class is given
    exactly the keywords [model], [loss_fn], [optimizer],
    [optimizer_kwargs], [scheduler], [scheduler_kwargs], [learning_rate]
    and [serializer]. The last six are the caller's, unchanged. [model] is
    the caller's, or a new [Transformer] when none was given. [loss_fn] is a
    perceptual loss made of the caller's content and style loss, with the
    defaults for the given (or default) encoder in place of a missing one.
    The style image, read from its file when given as a path, is not passed
    on but set on that perceptual loss, kept as [self.perceptual_loss]. *)
Theorem init_forwards_training_settings `{Libraries} (a : InitArgs)
    (kwargs : list (string * pyarg)) (self : StyleTransfer) :
  StyleTransfer_init a = Ok (kwargs, self) ->
  exists loss_fn : PerceptualLoss,
    kwargs.*1 = ["model"; "loss_fn"; "optimizer"; "optimizer_kwargs"; "scheduler";
                 "scheduler_kwargs"; "learning_rate"; "serializer"] /\
    (forall (name : string) (v : pyarg),
       name ∈ ["optimizer"; "optimizer_kwargs"; "scheduler"; "scheduler_kwargs";
               "learning_rate"; "serializer"] ->
       In (name, v) (call_arguments a) -> In (name, v) kwargs) /\
    In ("model", PModule (default Transformer_new (arg_model a))) kwargs /\
    In ("loss_fn", PLoss loss_fn) kwargs /\
    (forall op : Operator, arg_content_loss a = Some op -> content_loss loss_fn = op) /\
    (forall op : Operator, arg_style_loss a = Some op -> style_loss loss_fn = op) /\
    (arg_content_loss a = None ->
       default_content_loss
         (Some (default default_multi_layer_encoder (arg_multi_layer_encoder a)))
       = Ok (content_loss loss_fn)) /\
    (arg_style_loss a = None ->
       default_style_loss
         (Some (default default_multi_layer_encoder (arg_multi_layer_encoder a)))
       = Ok (style_loss loss_fn)) /\
    content_image loss_fn = None /\
    style_image loss_fn = None /\
    (exists image : tensor,
       match arg_style_image a with
       | inl path => read_image path
       | inr image => Ok image
       end = Ok image /\
       perceptual_loss self = set_style_image loss_fn image) /\
    model self = default Transformer_new (arg_model a).
Proof.
  intros Hinit.
  apply StyleTransfer_init_Ok in Hinit
    as (image & content & style & Himage & Hcontent & Hstyle & Hmodel & Hloss & ->).
  exists (PerceptualLoss_init content style). cbn [content_loss style_loss
    content_image style_image PerceptualLoss_init].
  split; [done|]. split.
  { intros name v Hname Hin. apply list_elem_of_In in Hname.
    unfold call_arguments in Hin. simpl in Hname.
    repeat (destruct Hname as [<- | Hname];
            [repeat (destruct Hin as [Hin | Hin];
                     [first [discriminate Hin | injection Hin as <-; simpl; tauto]|]);
             destruct Hin|]).
    destruct Hname. }
  split; [left; by rewrite Hmodel|].
  split; [right; by left|].
  split; [intros op Hop; rewrite Hop in Hcontent; congruence|].
  split; [intros op Hop; rewrite Hop in Hstyle; congruence|].
  split; [intros Hnone; by rewrite Hnone in Hcontent|].
  split; [intros Hnone; by rewrite Hnone in Hstyle|].
  split; [done|]. split; [done|]. split; [by exists image|]. done.
Qed.

Lemma init_forwards_training_settings_witness :
  exists (kwargs : list (string * pyarg)) (self : StyleTransfer),
    StyleTransfer_init example_args = Ok (kwargs, self) /\
    In ("learning_rate", PFloat 1e-3%Q) kwargs /\
    In ("optimizer", PObject Adam) kwargs.
Proof.
  assert (Hinit : exists r, StyleTransfer_init example_args = Ok r)
    by (eexists; vm_compute; reflexivity).
  destruct Hinit as ([kwargs self] & Hinit).
  destruct (init_forwards_training_settings example_args kwargs self Hinit)
    as (loss_fn & _ & Hsame & _).
  exists kwargs, self. split; [exact Hinit|]. split.
  - apply Hsame; [set_solver | vm_compute; tauto].
  - apply Hsame; [set_solver | vm_compute; tauto].
Defined.

(** C7. When no content loss and no style loss is given, the task takes
    its features from fixed layers of the encoder: the content loss is a
    feature reconstruction on the one layer ["relu2_2"] with score weight
    1e5, and the style loss works on the layers ["relu1_2"], ["relu2_2"],
    ["relu3_3"], ["relu4_3"] and no others, with score weight 1e10 and
    ["sum"] as layer weights. *)
Theorem default_losses_use_fixed_layers `{Libraries} (a : InitArgs)
    (kwargs : list (string * pyarg)) (self : StyleTransfer) :
  arg_content_loss a = None ->
  arg_style_loss a = None ->
  StyleTransfer_init a = Ok (kwargs, self) ->
  let multi_layer_encoder :=
    default vgg16_multi_layer_encoder (arg_multi_layer_encoder a) in
  exists content_encoder : Encoder,
    extract_encoder multi_layer_encoder "relu2_2" = Ok content_encoder /\
    content_loss (perceptual_loss self)
    = FeatureReconstructionOperator content_encoder (100000 # 1) /\
    MultiLayerEncodingOperator multi_layer_encoder
      ["relu1_2"; "relu2_2"; "relu3_3"; "relu4_3"]
      (fun encoder layer_weight => GramOperator encoder layer_weight)
      "sum" (10000000000 # 1)
    = Ok (style_loss (perceptual_loss self)) /\
    In ("loss_fn",
        PLoss (PerceptualLoss_init (content_loss (perceptual_loss self))
                 (style_loss (perceptual_loss self)))) kwargs.
Proof.
  intros Hcontent Hstyle Hinit mle.
  apply StyleTransfer_init_Ok in Hinit
    as (image & content & style & _ & Hc & Hs & _ & -> & ->).
  rewrite Hcontent in Hc. rewrite Hstyle in Hs.
  unfold default_content_loss in Hc. unfold default_style_loss in Hs.
  apply bind_Ok_inv in Hc as (content_encoder & Hextract & Hc).
  injection Hc as <-.
  exists content_encoder. cbn [perceptual_loss set_style_image content_loss
    style_loss PerceptualLoss_init].
  split; [exact Hextract|]. split; [reflexivity|]. split; [exact Hs|].
  right. by left.
Qed.

Lemma default_losses_use_fixed_layers_witness :
  exists (kwargs : list (string * pyarg)) (self : StyleTransfer),
    StyleTransfer_init example_args = Ok (kwargs, self) /\
    content_loss (perceptual_loss self) = [("relu2_2", 1e5%Q)] /\
    style_loss (perceptual_loss self)
    = [("relu1_2", 1e10%Q); ("relu2_2", 1e10%Q);
       ("relu3_3", 1e10%Q); ("relu4_3", 1e10%Q)].
Proof.
  assert (Hinit : exists r, StyleTransfer_init example_args = Ok r)
    by (eexists; vm_compute; reflexivity).
  destruct Hinit as ([kwargs self] & Hinit).
  destruct (default_losses_use_fixed_layers example_args kwargs self
              eq_refl eq_refl Hinit)
    as (content_encoder & Hextract & Hc & Hs & _).
  exists kwargs, self. split; [exact Hinit|]. split.
  - rewrite Hc. cbv in Hextract. injection Hextract as <-. reflexivity.
  - match type of Hs with
    | ?call = _ =>
        assert (Hcall : call = Ok [("relu1_2", 1e10%Q); ("relu2_2", 1e10%Q);
                                   ("relu3_3", 1e10%Q); ("relu4_3", 1e10%Q)])
          by (vm_compute; reflexivity)
    end.
    rewrite Hcall in Hs. injection Hs as <-. reflexivity.
Defined.

(* ===================================================================== *)
(** * Part III: further properties                                         *)
(* ===================================================================== *)

(** ** Loops *)

Lemma for_each_app {A S : Type} (xs ys : list A) (body : A -> S -> result S) (s : S) :
  for_each (xs ++ ys) body s = (s' <- for_each xs body s ;; for_each ys body s').
Proof.
  revert s. induction xs as [|x xs IH]; intros s; simpl; [done|].
  destruct (body x s) as [s'|e]; simpl; [apply IH | done].
Qed.

Lemma enumerate_from_app {A : Type} (start : nat) (xs ys : list A) :
  enumerate_from start (xs ++ ys)
  = enumerate_from start xs ++ enumerate_from (start + length xs) ys.
Proof.
  revert start. induction xs as [|x xs IH]; intros start; simpl.
  - by rewrite Nat.add_0_r.
  - rewrite IH. do 3 f_equal. lia.
Qed.

(** ** tutorial_1.py: more on load_data *)

Lemma os_listdir_not_isdir (fs : filesystem) (folder : string) :
  os_path_isdir fs folder = false ->
  os_listdir fs folder
  = Raise (match fs !! folder with
           | Some _ => NotADirectoryError folder
           | None => FileNotFoundError folder
           end).
Proof.
  unfold os_path_isdir, os_listdir.
  destruct (fs !! folder) as [[|entries]|]; done.
Qed.

Lemma blocks_app (fs : filesystem) (start : nat) (folders1 folders2 : list string) :
  blocks fs start (folders1 ++ folders2)
  = blocks fs start folders1 ++ blocks fs (start + length folders1) folders2.
Proof.
  revert start. induction folders1 as [|folder rest IH]; intros start; simpl.
  - by rewrite Nat.add_0_r.
  - rewrite IH, <- app_assoc. do 3 f_equal. lia.
Qed.

Lemma shift_target_load_data_sample (n c : nat) (folder p : string) :
  shift_target n (load_data_sample folder c p) = load_data_sample folder (c + n) p.
Proof.
  unfold shift_target, load_data_sample.
  rewrite alter_insert_ne by done. rewrite alter_insert_eq.
  by rewrite Nat2Z.inj_add.
Qed.

Lemma blocks_shift (fs : filesystem) (start n : nat) (folders : list string) :
  blocks fs (start + n) folders = map (shift_target n) (blocks fs start folders).
Proof.
  revert start. induction folders as [|folder rest IH]; intros start; simpl; [done|].
  rewrite map_app, map_map. f_equal.
  - apply map_ext. intros p. by rewrite shift_target_load_data_sample.
  - apply (IH (S start)).
Qed.

Lemma load_data_Ok (fs : filesystem) (self : FlashDataset) (folders : list string) :
  Forall (fun folder => os_path_isdir fs folder = true) folders ->
  (load_data fs self folders).2 = Ok (blocks fs 0 folders).
Proof.
  intros Hdirs. unfold load_data, enumerate. simpl.
  by rewrite (load_data_loop_blocks fs folders 0 [] Hdirs).
Qed.

(** X1. [load_data] fails at the first path that is not a directory, with
    the error of [os.listdir] for that path, whatever follows it; in the
    training stage [num_classes] has been set all the same. *)
Theorem load_data_fails_at_first_bad_folder (fs : filesystem) (self : FlashDataset)
    (before after : list string) (bad : string) :
  Forall (fun folder => os_path_isdir fs folder = true) before ->
  os_path_isdir fs bad = false ->
  let folders := before ++ bad :: after in
  (load_data fs self folders).2
  = Raise (match fs !! bad with
           | Some _ => NotADirectoryError bad
           | None => FileNotFoundError bad
           end) /\
  (running_stage self = TRAINING ->
   attributes (load_data fs self folders).1 !! "num_classes"
   = Some (VInt (Z.of_nat (length folders)))).
Proof.
  intros Hdirs Hbad folders. split.
  - unfold load_data, enumerate. cbn [snd]. subst folders.
    rewrite enumerate_from_app, for_each_app.
    rewrite (load_data_loop_blocks fs before 0 [] Hdirs). simpl.
    by rewrite (os_listdir_not_isdir fs bad Hbad).
  - intros Htrain. unfold load_data, training. cbn [fst].
    rewrite (bool_decide_eq_true_2 _ Htrain). apply lookup_insert_eq.
Qed.

Lemma load_data_fails_at_first_bad_folder_witness :
  (load_data example_fs (example_dataset TRAINING)
     (["data/ants"] ++ "data/readme.txt" :: ["data/bees"])).2
  = Raise (NotADirectoryError "data/readme.txt") /\
  attributes (load_data example_fs (example_dataset TRAINING)
                (["data/ants"] ++ "data/readme.txt" :: ["data/bees"])).1
    !! "num_classes" = Some (VInt 3).
Proof.
  assert (Hdirs : Forall (fun folder => os_path_isdir example_fs folder = true)
                    ["data/ants"]) by (repeat constructor).
  assert (Hbad : os_path_isdir example_fs "data/readme.txt" = false) by reflexivity.
  destruct (load_data_fails_at_first_bad_folder example_fs (example_dataset TRAINING)
              ["data/ants"] ["data/bees"] "data/readme.txt" Hdirs Hbad)
    as [Hraise Hclasses].
  split; [exact Hraise | exact (Hclasses eq_refl)].
Defined.

(** X2. [load_data] returns a list exactly when every path is a directory. *)
Theorem load_data_returns_iff_all_directories (fs : filesystem) (self : FlashDataset)
    (folders : list string) :
  (exists samples : list sample, (load_data fs self folders).2 = Ok samples)
  <-> Forall (fun folder => os_path_isdir fs folder = true) folders.
Proof.
  split.
  - intros [samples Hrun].
    destruct (decide (Forall (fun folder => os_path_isdir fs folder = true) folders))
      as [|Hnot]; [done|]. exfalso.
    apply not_Forall_Exists in Hnot; [|intros x; apply _].
    assert (Hsplit : exists before bad after,
               folders = before ++ bad :: after /\
               Forall (fun folder => os_path_isdir fs folder = true) before /\
               os_path_isdir fs bad = false).
    { clear Hrun. induction folders as [|folder rest IH].
      - by apply Exists_nil in Hnot.
      - destruct (os_path_isdir fs folder) eqn:Hdir.
        + apply Exists_cons in Hnot as [Hhere | Hrest]; [simpl in Hhere; congruence|].
          destruct (IH Hrest) as (before & bad & after & -> & Hbefore & Hbad).
          exists (folder :: before), bad, after.
          split; [done|]. split; [by constructor | done].
        + exists [], folder, rest. split; [done|]. split; [constructor | done]. }
    destruct Hsplit as (before & bad & after & -> & Hbefore & Hbad).
    destruct (load_data_fails_at_first_bad_folder fs self before after bad Hbefore Hbad)
      as [Hraise _].
    rewrite Hraise in Hrun. discriminate.
  - intros Hdirs. exists (blocks fs 0 folders). by apply load_data_Ok.
Qed.

(** X3. Every class index that [load_data] hands out is a position in the
    folder list: at least 0 and below the number of folders, which is the
    [num_classes] it sets in the training stage. *)
Theorem load_data_targets_below_num_classes (fs : filesystem) (self : FlashDataset)
    (folders : list string) (samples : list sample) (s : sample) :
  (load_data fs self folders).2 = Ok samples ->
  s ∈ samples ->
  exists c : Z,
    s !! TARGET = Some (VInt c) /\ 0 <= c < Z.of_nat (length folders) /\
    (running_stage self = TRAINING ->
     exists n : Z,
       attributes (load_data fs self folders).1 !! "num_classes" = Some (VInt n) /\
       c < n).
Proof.
  intros Hrun Hs.
  assert (Hdirs : Forall (fun folder => os_path_isdir fs folder = true) folders).
  { apply (load_data_returns_iff_all_directories fs self). eauto. }
  rewrite (load_data_Ok fs self folders Hdirs) in Hrun. injection Hrun as <-.
  apply list_elem_of_lookup in Hs as [k Hk].
  apply blocks_lookup in Hk as (i & folder & p & Hi & _ & ->).
  apply lookup_lt_Some in Hi.
  exists (Z.of_nat i). split; [done|]. split; [lia|].
  intros Htrain. exists (Z.of_nat (length folders)). split; [|lia].
  unfold load_data, training. cbn [fst].
  rewrite (bool_decide_eq_true_2 _ Htrain). apply lookup_insert_eq.
Qed.

Lemma load_data_targets_below_num_classes_witness :
  exists c : Z,
    load_data_sample "data/bees" 1 "b1.jpg" !! TARGET = Some (VInt c) /\
    0 <= c < 2.
Proof.
  destruct (load_data_targets_below_num_classes example_fs (example_dataset TRAINING)
              ["data/ants"; "data/bees"]
              (blocks example_fs 0 ["data/ants"; "data/bees"])
              (load_data_sample "data/bees" 1 "b1.jpg"))
    as (c & Hc & Hrange & _).
  - reflexivity.
  - vm_compute. set_solver.
  - exists c. split; [exact Hc | exact Hrange].
Defined.

(** X4. Loading two folder lists in one go gives the samples of the first
    list followed by those of the second, the class indices of the second
    moved up by the length of the first. *)
Theorem load_data_app (fs : filesystem) (self : FlashDataset)
    (folders1 folders2 : list string) (samples1 samples2 : list sample) :
  (load_data fs self folders1).2 = Ok samples1 ->
  (load_data fs self folders2).2 = Ok samples2 ->
  (load_data fs self (folders1 ++ folders2)).2
  = Ok (samples1 ++ map (shift_target (length folders1)) samples2).
Proof.
  intros Hrun1 Hrun2.
  assert (Hdirs1 : Forall (fun folder => os_path_isdir fs folder = true) folders1)
    by (apply (load_data_returns_iff_all_directories fs self); eauto).
  assert (Hdirs2 : Forall (fun folder => os_path_isdir fs folder = true) folders2)
    by (apply (load_data_returns_iff_all_directories fs self); eauto).
  rewrite (load_data_Ok fs self _ Hdirs1) in Hrun1. injection Hrun1 as <-.
  rewrite (load_data_Ok fs self _ Hdirs2) in Hrun2. injection Hrun2 as <-.
  rewrite (load_data_Ok fs self (folders1 ++ folders2))
    by (by apply Forall_app).
  rewrite blocks_app. simpl. by rewrite <- (blocks_shift fs 0).
Qed.

Lemma load_data_app_witness :
  (load_data example_fs (example_dataset VALIDATING) (["data/ants"] ++ ["data/bees"])).2
  = Ok (blocks example_fs 0 ["data/ants"]
        ++ map (shift_target 1) (blocks example_fs 0 ["data/bees"])).
Proof.
  apply (load_data_app example_fs (example_dataset VALIDATING)
           ["data/ants"] ["data/bees"]); reflexivity.
Defined.

(** X5. [load_data] returns no sample exactly when every folder is an empty
    directory; in particular for no folders at all. *)
Theorem load_data_empty_iff (fs : filesystem) (self : FlashDataset)
    (folders : list string) :
  (load_data fs self folders).2 = Ok []
  <-> Forall (fun folder => fs !! folder = Some (Dir [])) folders.
Proof.
  split.
  - intros Hrun.
    assert (Hdirs : Forall (fun folder => os_path_isdir fs folder = true) folders)
      by (apply (load_data_returns_iff_all_directories fs self); eauto).
    rewrite (load_data_Ok fs self _ Hdirs) in Hrun. injection Hrun as Hblocks.
    revert Hblocks. generalize 0%nat.
    induction Hdirs as [|folder rest Hdir _ IH]; intros start Hblocks; [constructor|].
    simpl in Hblocks. apply app_eq_nil in Hblocks as [Hfirst Hrest].
    constructor; [|by apply (IH (S start))].
    apply map_eq_nil in Hfirst. unfold listing in Hfirst.
    unfold os_path_isdir in Hdir.
    destruct (fs !! folder) as [[|entries]|]; congruence.
  - intros Hempty.
    assert (Hdirs : Forall (fun folder => os_path_isdir fs folder = true) folders).
    { eapply Forall_impl; [exact Hempty|]. intros folder Hf.
      unfold os_path_isdir. by rewrite Hf. }
    rewrite (load_data_Ok fs self _ Hdirs). f_equal.
    generalize 0%nat. induction Hempty as [|folder rest Hf _ IH]; intros start; [done|].
    simpl. inversion Hdirs; subst. rewrite IH by done.
    unfold listing. by rewrite Hf.
Qed.

(** X6. For a directory, [predict_load_data] gives what [load_data] gives
    for that one folder, with the [TARGET] entry taken out of each sample. *)
Theorem predict_load_data_is_load_data_without_target (fs : filesystem)
    (self : FlashDataset) (folder : string) :
  os_path_isdir fs folder = true ->
  exists samples : list sample,
    (load_data fs self [folder]).2 = Ok samples /\
    (predict_load_data fs self folder).2 = Ok (map (delete TARGET) samples).
Proof.
  intros Hdir. exists (blocks fs 0 [folder]). split.
  - apply load_data_Ok. by repeat constructor.
  - unfold predict_load_data. cbn [snd].
    rewrite Hdir, (os_listdir_isdir fs _ Hdir). simpl.
    rewrite for_each_append, app_nil_r, map_map. cbn [app]. f_equal.
Qed.

Lemma predict_load_data_is_load_data_without_target_witness :
  exists samples : list sample,
    (load_data example_fs (example_dataset PREDICTING) ["data/ants"]).2 = Ok samples /\
    (predict_load_data example_fs (example_dataset PREDICTING) "data/ants").2
    = Ok (map (delete TARGET) samples).
Proof.
  apply (predict_load_data_is_load_data_without_target example_fs
           (example_dataset PREDICTING) "data/ants").
  reflexivity.
Defined.

(** ** tutorial_1.py: load_sample *)

(** X7. When [load_sample] returns, the sample's [INPUT] entry has been
    opened as an image and replaced by it, [METADATA] holds that image's
    size, and every other entry, [TARGET] among them, is as it was. *)
Theorem load_sample_opens_input_keeps_rest `{Pillow}
    (sample loaded : gmap DefaultDataKeys (pyvalue Image)) :
  load_sample sample = Ok loaded ->
  exists (fp : pyvalue Image) (image : Image),
    sample !! INPUT = Some fp /\
    Image_open fp = Ok image /\
    loaded !! INPUT = Some (Opened image) /\
    loaded !! METADATA = Some (Size (Image_size image)) /\
    loaded !! TARGET = sample !! TARGET /\
    dom loaded = dom sample ∪ {[METADATA]}.
Proof.
  unfold load_sample, getitem. intros Hrun.
  destruct (sample !! INPUT) as [fp|] eqn:Hfp; [|discriminate].
  cbn [bind] in Hrun.
  destruct (Image_open fp) as [image|e] eqn:Hopen; [|discriminate].
  cbn [bind] in Hrun. injection Hrun as <-.
  exists fp, image. split; [done|]. split; [done|].
  split; [rewrite lookup_insert_ne by done; apply lookup_insert_eq|].
  split; [apply lookup_insert_eq|].
  split; [by rewrite !lookup_insert_ne by done|].
  rewrite !dom_insert_L.
  assert (Hin : INPUT ∈ dom sample) by (apply elem_of_dom; eauto).
  apply set_eq. intros k. rewrite !elem_of_union, !elem_of_singleton.
  split; [intros [-> | [-> | Hk]]; auto | intros [Hk | ->]; auto].
Qed.

Lemma load_sample_opens_input_keeps_rest_witness :
  exists (fp : pyvalue Image) (image : Image),
    as_loaded (load_data_sample "data/ants" 0 "a1.jpg") !! INPUT = Some fp /\
    Image_open fp = Ok image /\
    image = "data/ants/a1.jpg".
Proof.
  destruct (@load_sample_opens_input_keeps_rest example_pillow
              (as_loaded (load_data_sample "data/ants" 0 "a1.jpg"))
              (<[METADATA := Size (500, 375)]>
                 (<[INPUT := Opened "data/ants/a1.jpg"]>
                    (as_loaded (load_data_sample "data/ants" 0 "a1.jpg")))))
    as (fp & image & Hfp & Hopen & Hin & _).
  - reflexivity.
  - exists fp, image. split; [exact Hfp|]. split; [exact Hopen|].
    rewrite lookup_insert_ne in Hin by done.
    rewrite lookup_insert_eq in Hin. by injection Hin as <-.
Defined.

(** X8. [load_sample] raises in two cases only: [KeyError] when the sample
    has no [INPUT] entry, and otherwise whatever [Image.open] raises on
    that entry. *)
Theorem load_sample_raises_iff `{Pillow}
    (sample : gmap DefaultDataKeys (pyvalue Image)) (e : exception) :
  load_sample sample = Raise e
  <-> (sample !! INPUT = None /\ e = KeyError "input") \/
      (exists fp : pyvalue Image, sample !! INPUT = Some fp /\ Image_open fp = Raise e).
Proof.
  unfold load_sample, getitem.
  destruct (sample !! INPUT) as [fp|] eqn:Hfp; cbn [bind].
  - destruct (Image_open fp) as [image|e'] eqn:Hopen; cbn [bind].
    + split; [discriminate|].
      intros [[? _] | (fp' & Hfp' & Hraise)]; [discriminate|].
      injection Hfp' as <-. congruence.
    + split.
      * intros Hraise. injection Hraise as <-. right. eauto.
      * intros [[? _] | (fp' & Hfp' & Hraise)]; [discriminate|].
        injection Hfp' as <-. congruence.
  - split.
    + intros Hraise. injection Hraise as <-. by left.
    + intros [[_ ->] | (fp' & Hfp' & _)]; [done | discriminate].
Qed.

(** X9. From [load_data] to [load_sample]: the sample made for file [p] of
    the folder at position [class_idx], once loaded, holds the image opened
    at [os.path.join(folder, p)], the class index as [TARGET] and the
    image's size as [METADATA], and nothing else. A sample of
    [predict_load_data] ends up without a [TARGET]. *)
Theorem load_sample_after_load_data `{Pillow} (folder p : string) (class_idx : nat)
    (image : Image) :
  Image_open (Plain (VStr (os_path_join folder p))) = Ok image ->
  load_sample (as_loaded (load_data_sample folder class_idx p))
  = Ok (<[INPUT := Opened image]>
          (<[TARGET := Plain (VInt (Z.of_nat class_idx))]>
             (<[METADATA := Size (Image_size image)]> ∅))) /\
  load_sample (as_loaded (predict_load_data_sample folder p))
  = Ok (<[INPUT := Opened image]> (<[METADATA := Size (Image_size image)]> ∅)).
Proof.
  intros Hopen. unfold load_sample, getitem, as_loaded,
    load_data_sample, predict_load_data_sample.
  rewrite !lookup_fmap, !lookup_insert_eq. cbn [fmap option_fmap option_map bind].
  rewrite Hopen. cbn [bind]. split; f_equal; apply map_eq; intros []; done.
Qed.

Lemma load_sample_after_load_data_witness :
  load_sample (as_loaded (load_data_sample "data/bees" 1 "b1.jpg"))
  = Ok (<[INPUT := Opened "data/bees/b1.jpg"]>
          (<[TARGET := Plain (VInt 1)]> (<[METADATA := Size (500, 375)]> ∅))).
Proof.
  apply (@load_sample_after_load_data example_pillow
           "data/bees" "b1.jpg" 1 "data/bees/b1.jpg").
  reflexivity.
Defined.

(** ** tutorial_1.py: the transforms *)

(** X10. Outside the training stage the random-rotation transform
    configures what the base transform configures, whatever the rotation:
    a rotation is added, and a negative one refused, in training only. *)
Theorem random_rotation_only_when_training (self : PreTransform)
    (image_size : Z) (rotation : Q) :
  (transform_running_stage self <> TRAINING ->
   ImageRandomRotationTransform_configure_transforms self image_size rotation
   = ImageBaseTransform_configure_transforms self image_size) /\
  (transform_running_stage self = TRAINING -> (0 <= rotation)%Q ->
   exists placed : gmap PreTransformPlacement callable,
     ImageRandomRotationTransform_configure_transforms self image_size rotation
     = Ok placed /\
     placed !! PER_SAMPLE_TRANSFORM
     = Some (ApplyToKeys INPUT
               [Resize (image_size, image_size); ToTensor;
                RandomRotation ((- rotation)%Q, rotation)]) /\
     placed !! COLLATE = Some default_collate) /\
  (transform_running_stage self = TRAINING -> (rotation < 0)%Q ->
   ImageRandomRotationTransform_configure_transforms self image_size rotation
   = Raise (ValueError "If degrees is a single number, it must be positive.")).
Proof.
  unfold ImageRandomRotationTransform_configure_transforms,
    ImageBaseTransform_configure_transforms, PreTransform_training, T_RandomRotation.
  split; [|split].
  - intros Hother. by rewrite (bool_decide_eq_false_2 _ Hother).
  - intros Htrain Hrot. rewrite (bool_decide_eq_true_2 _ Htrain).
    rewrite (proj2 (Qle_bool_iff 0 rotation) Hrot). cbn [bind app].
    eexists. split; [reflexivity|]. split; [apply lookup_insert_eq|].
    rewrite lookup_insert_ne by done. apply lookup_insert_eq.
  - intros Htrain Hrot. rewrite (bool_decide_eq_true_2 _ Htrain).
    destruct (Qle_bool 0 rotation) eqn:Hle; [|done].
    apply Qle_bool_iff in Hle. exfalso. by apply (Qlt_not_le _ _ Hrot).
Qed.

(** X11. Whatever the stage, a configuration of either transform resizes to
    a square of [image_size] and then converts to a tensor, before anything
    else, on the [INPUT] entry, and collates by default. *)
Theorem transforms_resize_then_to_tensor (self : PreTransform)
    (image_size : Z) (rotation : Q) (placed : gmap PreTransformPlacement callable) :
  ImageRandomRotationTransform_configure_transforms self image_size rotation = Ok placed
  \/ ImageBaseTransform_configure_transforms self image_size = Ok placed ->
  exists more : list transform,
    placed !! PER_SAMPLE_TRANSFORM
    = Some (ApplyToKeys INPUT ([Resize (image_size, image_size); ToTensor] ++ more)) /\
    (length more <= 1)%nat /\
    placed !! COLLATE = Some default_collate /\
    dom placed = {[PER_SAMPLE_TRANSFORM; COLLATE]}.
Proof.
  unfold ImageRandomRotationTransform_configure_transforms,
    ImageBaseTransform_configure_transforms, T_RandomRotation.
  intros [Hrun | Hrun].
  - destruct (PreTransform_training self).
    + destruct (Qle_bool 0 rotation); [|discriminate].
      cbn [bind] in Hrun. injection Hrun as <-.
      exists [RandomRotation ((- rotation)%Q, rotation)].
      split; [apply lookup_insert_eq|]. split; [simpl; lia|].
      split; [rewrite lookup_insert_ne by done; apply lookup_insert_eq|].
      rewrite !dom_insert_L. set_solver.
    + cbn [bind] in Hrun. injection Hrun as <-. exists [].
      split; [apply lookup_insert_eq|]. split; [simpl; lia|].
      split; [rewrite lookup_insert_ne by done; apply lookup_insert_eq|].
      rewrite !dom_insert_L. set_solver.
  - injection Hrun as <-. exists [].
    split; [apply lookup_insert_eq|]. split; [simpl; lia|].
    split; [rewrite lookup_insert_ne by done; apply lookup_insert_eq|].
    rewrite !dom_insert_L. set_solver.
Qed.

Lemma transforms_resize_then_to_tensor_witness :
  exists (placed : gmap PreTransformPlacement callable) (more : list transform),
    ImageRandomRotationTransform_configure_transforms
      {| transform_running_stage := TRAINING |} 224 (45 # 1) = Ok placed /\
    placed !! PER_SAMPLE_TRANSFORM
    = Some (ApplyToKeys INPUT ([Resize (224, 224); ToTensor] ++ more)).
Proof.
  assert (Hrun : exists placed,
             ImageRandomRotationTransform_configure_transforms
               {| transform_running_stage := TRAINING |} 224 (45 # 1) = Ok placed)
    by (eexists; reflexivity).
  destruct Hrun as [placed Hrun].
  destruct (transforms_resize_then_to_tensor {| transform_running_stage := TRAINING |}
              224 (45 # 1) placed (or_introl Hrun)) as (more & Hplaced & _).
  exists placed, more. split; [exact Hrun | exact Hplaced].
Defined.

(** ** model.py: more on the shapes through Conv, Residual and Transformer *)

Lemma Conv_forward_plain (cin cout k m s : Z) (n a : bool) (x : shape) :
  k = 2 * m + 1 -> 0 <= m -> 0 < s ->
  m < height x -> m < width x -> channels x = cin ->
  (n = true -> ((height x - 1) / s + 1) * ((width x - 1) / s + 1) <> 1) ->
  Conv_forward (Conv_init cin cout k s false n a) x
  = Ok {| batch_size := batch_size x; channels := cout;
          height := (height x - 1) / s + 1; width := (width x - 1) / s + 1 |}.
Proof.
  intros -> Hm Hs Hh Hw Hc Hn. unfold Conv_forward, Conv_init. simpl.
  unfold ReflectionPad2d_forward, Conv2d_forward. simpl.
  replace ((2 * m + 1) / 2) with m by (apply Z.div_unique with 1; lia).
  rewrite (proj2 (Z.ltb_lt _ _) Hh), (proj2 (Z.ltb_lt _ _) Hw). simpl.
  rewrite (proj2 (Z.eqb_eq _ _) Hc). simpl.
  rewrite (proj2 (Z.ltb_ge _ _)) by lia.
  rewrite (proj2 (Z.ltb_ge _ _)) by lia. simpl.
  replace (height x + 2 * m - (2 * m + 1)) with (height x - 1) by lia.
  replace (width x + 2 * m - (2 * m + 1)) with (width x - 1) by lia.
  unfold InstanceNorm2d_forward, ReLU_forward.
  destruct n; simpl.
  - rewrite (proj2 (Z.eqb_neq _ _) (Hn eq_refl)). simpl. by destruct a.
  - by destruct a.
Qed.

(** X12. A [Conv] with an odd kernel and stride [s], without upsampling,
    divides the spatial sizes by [s], rounding up, and sets the channels to
    [out_channels], provided the padding fits, the input has [in_channels]
    channels, and normalisation is left more than one spatial element (a
    side longer than the stride). *)
Theorem Conv_forward_strided (cin cout k s : Z) (n a : bool) (x : shape) :
  0 < k -> Z.odd k = true -> 0 < s ->
  k / 2 < height x -> k / 2 < width x -> channels x = cin ->
  (n = true -> s < height x \/ s < width x) ->
  Conv_forward (Conv_init cin cout k s false n a) x
  = Ok {| batch_size := batch_size x; channels := cout;
          height := (height x + s - 1) / s; width := (width x + s - 1) / s |}.
Proof.
  intros Hk Hodd Hs Hh Hw Hc Hn2.
  destruct (odd_kernel_size k Hk Hodd) as (m & Hm & ->).
  assert (Hhalf : (2 * m + 1) / 2 = m) by (symmetry; apply Z.div_unique with 1; lia).
  rewrite Hhalf in Hh, Hw.
  assert (Hup : forall h, (h + s - 1) / s = (h - 1) / s + 1).
  { intros h. replace (h + s - 1) with (h - 1 + 1 * s) by lia.
    rewrite Z.div_add by lia. done. }
  rewrite !Hup.
  apply (Conv_forward_plain cin cout (2 * m + 1) m s n a x); try done.
  intros Hnorm.
  assert (0 <= (height x - 1) / s) by (apply Z.div_pos; lia).
  assert (0 <= (width x - 1) / s) by (apply Z.div_pos; lia).
  destruct (Hn2 Hnorm) as [Hbig | Hbig].
  - assert (1 <= (height x - 1) / s) by (apply Z.div_le_lower_bound; lia). nia.
  - assert (1 <= (width x - 1) / s) by (apply Z.div_le_lower_bound; lia). nia.
Qed.

Lemma Conv_forward_strided_witness :
  Conv_forward (Conv_init 32 64 3 2 false true true)
    {| batch_size := 4; channels := 32; height := 255; width := 256 |}
  = Ok {| batch_size := 4; channels := 64; height := 128; width := 128 |}.
Proof.
  apply (Conv_forward_strided 32 64 3 2 true true
           {| batch_size := 4; channels := 32; height := 255; width := 256 |});
    try reflexivity; simpl; intros; lia.
Defined.

(** X13. A [Conv] with an odd kernel that upsamples multiplies the spatial
    sizes by the stride. *)
Theorem Conv_forward_upsampling (cin cout k s : Z) (n a : bool) (x : shape) :
  0 < k -> Z.odd k = true -> 0 < s ->
  k / 2 < height x * s -> k / 2 < width x * s -> channels x = cin ->
  (n = true -> 1 < height x * s \/ 1 < width x * s) ->
  Conv_forward (Conv_init cin cout k s true n a) x
  = Ok {| batch_size := batch_size x; channels := cout;
          height := height x * s; width := width x * s |}.
Proof.
  intros Hk Hodd Hs Hh Hw Hc Hn.
  rewrite Conv_forward_upsample, interpolate_integer_factor. cbn [bind].
  rewrite (Conv_forward_strided cin cout k 1 n a); cbn [height width channels];
    try done; try lia.
  do 2 f_equal; rewrite Z.div_1_r; lia.
Qed.

Lemma Conv_forward_upsampling_witness :
  Conv_forward (Conv_init 128 64 3 2 true true true)
    {| batch_size := 4; channels := 128; height := 64; width := 64 |}
  = Ok {| batch_size := 4; channels := 64; height := 128; width := 128 |}.
Proof.
  apply (Conv_forward_upsampling 128 64 3 2 true true
           {| batch_size := 4; channels := 128; height := 64; width := 64 |});
    try reflexivity; simpl; intros; lia.
Defined.

(** X14. With an even kernel and stride 1 the padding of [kernel_size // 2]
    is one too many: the output is one larger than the input on each side. *)
Theorem Conv_forward_even_kernel_grows (cin cout k : Z) (n a : bool) (x : shape) :
  0 < k -> Z.even k = true ->
  k / 2 < height x -> k / 2 < width x -> channels x = cin ->
  Conv_forward (Conv_init cin cout k 1 false n a) x
  = Ok {| batch_size := batch_size x; channels := cout;
          height := height x + 1; width := width x + 1 |}.
Proof.
  intros Hk Heven Hh Hw Hc.
  assert (Hm : exists m, 0 < m /\ k = 2 * m).
  { exists (k / 2). pose proof (Z.div_mod k 2 ltac:(lia)) as Hdiv.
    rewrite Zmod_even, Heven in Hdiv. lia. }
  destruct Hm as (m & Hm & ->).
  replace (2 * m / 2) with m in Hh, Hw by (apply Z.div_unique with 0; lia).
  unfold Conv_forward, Conv_init. simpl.
  unfold ReflectionPad2d_forward, Conv2d_forward. simpl.
  replace (2 * m / 2) with m by (apply Z.div_unique with 0; lia).
  rewrite (proj2 (Z.ltb_lt _ _) Hh), (proj2 (Z.ltb_lt _ _) Hw). simpl.
  rewrite (proj2 (Z.eqb_eq _ _) Hc). simpl.
  rewrite (proj2 (Z.ltb_ge _ _)) by lia.
  rewrite (proj2 (Z.ltb_ge _ _)) by lia. simpl.
  rewrite !Z.div_1_r.
  replace (height x + 2 * m - 2 * m + 1) with (height x + 1) by lia.
  replace (width x + 2 * m - 2 * m + 1) with (width x + 1) by lia.
  unfold InstanceNorm2d_forward, ReLU_forward.
  destruct n; simpl.
  - rewrite (proj2 (Z.eqb_neq _ _)) by nia. simpl. by destruct a.
  - by destruct a.
Qed.

Lemma Conv_forward_even_kernel_grows_witness :
  Conv_forward (Conv_init 3 3 4 1 false true true)
    {| batch_size := 1; channels := 3; height := 8; width := 8 |}
  = Ok {| batch_size := 1; channels := 3; height := 9; width := 9 |}.
Proof.
  apply (Conv_forward_even_kernel_grows 3 3 4 true true
           {| batch_size := 1; channels := 3; height := 8; width := 8 |});
    reflexivity.
Defined.

(** X15. A [Conv] that does not upsample refuses an input no larger than
    its padding on some side, before anything else is looked at; and an
    input that is large enough but has the wrong number of channels. *)
Theorem Conv_forward_refuses (cin cout k s : Z) (n a : bool) (x : shape) :
  (height x <= k / 2 \/ width x <= k / 2 ->
   Conv_forward (Conv_init cin cout k s false n a) x
   = Raise (RuntimeError
              "Padding size should be less than the corresponding input dimension")) /\
  (k / 2 < height x -> k / 2 < width x -> channels x <> cin ->
   Conv_forward (Conv_init cin cout k s false n a) x
   = Raise (RuntimeError "expected input to have in_channels channels")).
Proof.
  unfold Conv_forward, Conv_init. simpl.
  unfold ReflectionPad2d_forward, Conv2d_forward. simpl. split.
  - intros Hsmall.
    assert (Hpad : ((k / 2 <? height x) && (k / 2 <? width x))%bool = false).
    { apply andb_false_iff. rewrite !Z.ltb_ge. tauto. }
    by rewrite Hpad.
  - intros Hh Hw Hc.
    rewrite (proj2 (Z.ltb_lt _ _) Hh), (proj2 (Z.ltb_lt _ _) Hw). simpl.
    by rewrite (proj2 (Z.eqb_neq _ _) Hc).
Qed.

Lemma Conv_forward_Ok_inv (cin cout k s : Z) (n a : bool) (x y : shape) :
  Conv_forward (Conv_init cin cout k s false n a) x = Ok y ->
  k / 2 < height x /\ k / 2 < width x /\ channels x = cin.
Proof.
  intros Hrun.
  destruct (decide (k / 2 < height x)) as [Hh|Hh];
    [|rewrite (proj1 (Conv_forward_refuses cin cout k s n a x)) in Hrun by lia;
      discriminate].
  destruct (decide (k / 2 < width x)) as [Hw|Hw];
    [|rewrite (proj1 (Conv_forward_refuses cin cout k s n a x)) in Hrun by lia;
      discriminate].
  destruct (decide (channels x = cin)) as [Hc|Hc]; [done|].
  rewrite (proj2 (Conv_forward_refuses cin cout k s n a x)) in Hrun by done.
  discriminate.
Qed.

(** X16. [Residual.forward] returns exactly on inputs that have the block's
    number of channels and at least two rows and two columns, and then
    returns a tensor of the input's shape. *)
Theorem Residual_forward_returns_iff (ch : Z) (x y : shape) :
  Residual_forward (Residual_init ch) x = Ok y
  <-> y = x /\ channels x = ch /\ 2 <= height x /\ 2 <= width x.
Proof.
  split.
  - intros Hrun.
    assert (Hin : channels x = ch /\ 2 <= height x /\ 2 <= width x).
    { unfold Residual_forward, Residual_init in Hrun. cbn [conv1 conv2] in Hrun.
      destruct (Conv_forward (Conv_init ch ch 3 1 false true true) x)
        as [inner|e] eqn:Hinner; [|discriminate].
      apply Conv_forward_Ok_inv in Hinner as (Hh & Hw & Hc).
      change (3 / 2) with 1 in Hh, Hw. lia. }
    destruct Hin as (Hc & Hh & Hw).
    rewrite (Residual_forward_returns ch x Hc Hh Hw) in Hrun.
    injection Hrun as <-. done.
  - intros (-> & Hc & Hh & Hw). by apply Residual_forward_returns.
Qed.

(** X17. On a batch of three-channel images with sides of at least 5, the
    whole [Transformer] returns a batch of three-channel images whose sides
    are those of the input rounded up to the next multiple of 4; so the
    output has the input's shape exactly when both sides are multiples
    of 4. *)
Theorem Transformer_forward_shape (x : shape) :
  channels x = 3 -> 5 <= height x -> 5 <= width x ->
  Transformer_forward Transformer_shapes x
  = Ok {| batch_size := batch_size x; channels := 3;
          height := 4 * ((height x + 3) / 4);
          width := 4 * ((width x + 3) / 4) |} /\
  (Transformer_forward Transformer_shapes x = Ok x
   <-> height x mod 4 = 0 /\ width x mod 4 = 0).
Proof.
  intros Hc Hh Hw.
  set (h1 := (height x - 1) / 2 + 1). set (w1 := (width x - 1) / 2 + 1).
  set (h2 := (h1 - 1) / 2 + 1). set (w2 := (w1 - 1) / 2 + 1).
  assert (Hh1 : 3 <= h1) by (subst h1; Z.div_mod_to_equations; lia).
  assert (Hw1 : 3 <= w1) by (subst w1; Z.div_mod_to_equations; lia).
  assert (Hh2 : 2 <= h2) by (subst h2; Z.div_mod_to_equations; lia).
  assert (Hw2 : 2 <= w2) by (subst w2; Z.div_mod_to_equations; lia).
  set (s1 := {| batch_size := batch_size x; channels := 32;
                height := height x; width := width x |}).
  set (s2 := {| batch_size := batch_size x; channels := 64;
                height := h1; width := w1 |}).
  set (s3 := {| batch_size := batch_size x; channels := 128;
                height := h2; width := w2 |}).
  set (s4 := {| batch_size := batch_size x; channels := 64;
                height := h2 * 2; width := w2 * 2 |}).
  set (s5 := {| batch_size := batch_size x; channels := 32;
                height := h2 * 2 * 2; width := w2 * 2 * 2 |}).
  set (s6 := {| batch_size := batch_size x; channels := 3;
                height := h2 * 2 * 2; width := w2 * 2 * 2 |}).
  assert (E1 : Conv_forward (Conv_init 3 32 9 1 false true true) x = Ok s1)
    by (apply (Conv_forward_plain_odd_returns 3 32 4 true true x); try done; nia).
  assert (E2 : Conv_forward (Conv_init 32 64 3 2 false true true) s1 = Ok s2)
    by (apply (Conv_forward_plain 32 64 3 1 2 true true s1);
        subst s1; cbn [height width channels]; try done; try lia;
        intros _; change ((height x - 1) / 2 + 1) with h1;
        change ((width x - 1) / 2 + 1) with w1; nia).
  assert (E3 : Conv_forward (Conv_init 64 128 3 2 false true true) s2 = Ok s3)
    by (apply (Conv_forward_plain 64 128 3 1 2 true true s2);
        subst s2; cbn [height width channels]; try done; try lia;
        intros _; change ((h1 - 1) / 2 + 1) with h2;
        change ((w1 - 1) / 2 + 1) with w2; nia).
  assert (E4 : Residual_forward (Residual_init 128) s3 = Ok s3)
    by (apply Residual_forward_returns; subst s3; done).
  assert (E5 : Conv_forward (Conv_init 128 64 3 2 true true true) s3 = Ok s4)
    by (apply (Conv_forward_upsampling 128 64 3 2 true true s3);
        subst s3; cbn [height width channels]; try done; change (3 / 2) with 1;
        try lia; intros; lia).
  assert (E6 : Conv_forward (Conv_init 64 32 3 2 true true true) s4 = Ok s5)
    by (apply (Conv_forward_upsampling 64 32 3 2 true true s4);
        subst s4; cbn [height width channels]; try done; change (3 / 2) with 1;
        try lia; intros; lia).
  assert (E7 : Conv_forward (Conv_init 32 3 9 1 false false false) s5 = Ok s6)
    by (apply (Conv_forward_plain_odd_returns 32 3 4 false false s5);
        subst s5; cbn [height width channels]; try done; lia).
  assert (Hout : Transformer_forward Transformer_shapes x = Ok s6).
  { unfold Transformer_forward, Transformer_shapes, Sequential_forward.
    cbn [preprocessor encoder decoder postprocessor bind for_each].
    rewrite E1. cbn [bind]. rewrite E2. cbn [bind]. rewrite E3. cbn [bind].
    do 5 (rewrite E4; cbn [bind]). rewrite E5. cbn [bind]. rewrite E6. cbn [bind].
    rewrite E7. done. }
  assert (Hh4 : h2 * 2 * 2 = 4 * ((height x + 3) / 4))
    by (subst h2 h1; Z.div_mod_to_equations; lia).
  assert (Hw4 : w2 * 2 * 2 = 4 * ((width x + 3) / 4))
    by (subst w2 w1; Z.div_mod_to_equations; lia).
  rewrite Hout. subst s6. rewrite Hh4, Hw4. split; [done|]. split.
  - intros Hsame. injection Hsame as Hsh. rewrite <- Hsh at 2.
    destruct x as [n c h w]; cbn [height width batch_size channels] in *.
    inversion Hsh as [[Hhh Hww]]. clear Hsh.
    split; Z.div_mod_to_equations; lia.
  - intros [Hmh Hmw]. f_equal.
    destruct x as [n c h w]; cbn [height width batch_size channels] in *.
    subst c. f_equal; Z.div_mod_to_equations; lia.
Qed.

Lemma Transformer_forward_shape_witness :
  Transformer_forward Transformer_shapes
    {| batch_size := 2; channels := 3; height := 30; width := 17 |}
  = Ok {| batch_size := 2; channels := 3; height := 32; width := 20 |}.
Proof.
  apply (proj1 (Transformer_forward_shape
                  {| batch_size := 2; channels := 3; height := 30; width := 17 |}
                  eq_refl ltac:(simpl; lia) ltac:(simpl; lia))).
Defined.

(** X18. The [Transformer] returns exactly on three-channel inputs with
    sides of at least 5: a smaller side cannot take the first padding of
    4, and another number of channels is refused by the first
    convolution. *)
Theorem Transformer_forward_returns_iff (x : shape) :
  ((exists y : shape, Transformer_forward Transformer_shapes x = Ok y)
   <-> channels x = 3 /\ 5 <= height x /\ 5 <= width x) /\
  (height x <= 4 \/ width x <= 4 ->
   Transformer_forward Transformer_shapes x
   = Raise (RuntimeError
              "Padding size should be less than the corresponding input dimension")) /\
  (5 <= height x -> 5 <= width x -> channels x <> 3 ->
   Transformer_forward Transformer_shapes x
   = Raise (RuntimeError "expected input to have in_channels channels")).
Proof.
  assert (Hfirst : forall e,
            Conv_forward (Conv_init 3 32 9 1 false true true) x = Raise e ->
            Transformer_forward Transformer_shapes x = Raise e).
  { intros e He. unfold Transformer_forward, Transformer_shapes, Sequential_forward.
    cbn [preprocessor encoder decoder postprocessor bind for_each].
    by rewrite He. }
  assert (Hsmall : height x <= 4 \/ width x <= 4 ->
            Transformer_forward Transformer_shapes x
            = Raise (RuntimeError
                "Padding size should be less than the corresponding input dimension")).
  { intros Hs. apply Hfirst.
    apply (proj1 (Conv_forward_refuses 3 32 9 1 true true x)).
    change (9 / 2) with 4. lia. }
  assert (Hchan : 5 <= height x -> 5 <= width x -> channels x <> 3 ->
            Transformer_forward Transformer_shapes x
            = Raise (RuntimeError "expected input to have in_channels channels")).
  { intros Hh Hw Hc. apply Hfirst.
    apply (proj2 (Conv_forward_refuses 3 32 9 1 true true x));
      [change (9 / 2) with 4; lia | change (9 / 2) with 4; lia | done]. }
  split; [|split; done].
  split.
  - intros [y Hy].
    destruct (decide (5 <= height x)) as [Hh|Hh];
      [|rewrite Hsmall in Hy by lia; discriminate].
    destruct (decide (5 <= width x)) as [Hw|Hw];
      [|rewrite Hsmall in Hy by lia; discriminate].
    destruct (decide (channels x = 3)) as [Hc|Hc]; [done|].
    rewrite Hchan in Hy by done. discriminate.
  - intros (Hc & Hh & Hw). eexists.
    apply (proj1 (Transformer_forward_shape x Hc Hh Hw)).
Qed.

(** ** model.py: more on the value ranges *)

Lemma c255_positive : (Q2Qc 0 < c255)%Qc.
Proof. reflexivity. Qed.

(** X19. [FloatToUint8Range] takes entries between 0 and 1 to entries
    between 0 and 255, and [Uint8ToFloatRange] takes entries between 0 and
    255 to entries between 0 and 1; both keep the shape and the number of
    entries. *)
Theorem range_modules_map_ranges (t : tensor) :
  (Forall (fun v => (Q2Qc 0 <= v)%Qc /\ (v <= Q2Qc 1)%Qc) (tensor_data t) ->
   Forall (fun v => (Q2Qc 0 <= v)%Qc /\ (v <= c255)%Qc)
     (tensor_data (FloatToUint8Range_forward t))) /\
  (Forall (fun v => (Q2Qc 0 <= v)%Qc /\ (v <= c255)%Qc) (tensor_data t) ->
   Forall (fun v => (Q2Qc 0 <= v)%Qc /\ (v <= Q2Qc 1)%Qc)
     (tensor_data (Uint8ToFloatRange_forward t))) /\
  tensor_shape (FloatToUint8Range_forward t) = tensor_shape t /\
  tensor_shape (Uint8ToFloatRange_forward t) = tensor_shape t /\
  length (tensor_data (FloatToUint8Range_forward t)) = length (tensor_data t) /\
  length (tensor_data (Uint8ToFloatRange_forward t)) = length (tensor_data t).
Proof.
  unfold FloatToUint8Range_forward, Uint8ToFloatRange_forward,
    tensor_mul_scalar, tensor_div_scalar. cbn [tensor_data tensor_shape].
  split; [|split; [|rewrite !length_map; done]].
  - intros Hrange. apply Forall_map. eapply Forall_impl; [exact Hrange|].
    intros v [H0 H1]. simpl. split.
    + replace (Q2Qc 0) with (Q2Qc 0 * c255)%Qc by ring.
      apply Qcmult_le_compat_r; [done | by apply Qclt_le_weak, c255_positive].
    + replace c255 with (Q2Qc 1 * c255)%Qc at 2 by ring.
      apply Qcmult_le_compat_r; [done | by apply Qclt_le_weak, c255_positive].
  - intros Hrange. apply Forall_map. eapply Forall_impl; [exact Hrange|].
    intros v [H0 H255]. simpl. split.
    + apply (Qcmult_lt_0_le_reg_r _ _ c255 c255_positive).
      rewrite div_mul_255. by replace (Q2Qc 0 * c255)%Qc with (Q2Qc 0) by ring.
    + apply (Qcmult_lt_0_le_reg_r _ _ c255 c255_positive).
      rewrite div_mul_255. by replace (Q2Qc 1 * c255)%Qc with c255 by ring.
Qed.

(** X20. The scaling at both ends of a [Transformer] cancels out: whenever
    the decoder gives back what the encoder was given (the scaled input),
    [forward] returns its input; in particular with stacks that pass
    their input through. *)
Theorem Transformer_forward_scaling_cancels (enc dec : tensor -> result tensor)
    (t encoded : tensor) :
  enc (FloatToUint8Range_forward t) = Ok encoded ->
  dec encoded = Ok (FloatToUint8Range_forward t) ->
  Transformer_forward (Transformer_init enc dec) t = Ok t.
Proof.
  intros Henc Hdec. unfold Transformer_forward, Transformer_init.
  cbn [preprocessor encoder decoder postprocessor bind].
  rewrite Henc. cbn [bind]. rewrite Hdec. cbn [bind].
  by rewrite Uint8ToFloatRange_after_FloatToUint8Range.
Qed.

Lemma Transformer_forward_scaling_cancels_witness :
  Transformer_forward (Transformer_init Ok Ok) example_image = Ok example_image.
Proof.
  apply (Transformer_forward_scaling_cancels Ok Ok example_image
           (FloatToUint8Range_forward example_image)); reflexivity.
Defined.

(** ** model.py: more on the StyleTransfer task *)

(** X23. [step] sets the content image before it runs the model: when the
    forward pass or the loss evaluation raises, [step] raises the same, and
    the task is left with the batch as its content image. *)
Theorem step_sets_content_image_before_failing `{Libraries}
    (forward : StyleTransfer -> tensor -> result tensor)
    (self : StyleTransfer) (batch : tensor) (batch_idx : Z) (e : exception) :
  let self' := {| model := model self;
                  perceptual_loss := set_content_image (perceptual_loss self) batch |} in
  forward self' batch = Raise e \/
  (exists output_image : tensor,
     forward self' batch = Ok output_image /\
     PerceptualLoss_forward (perceptual_loss self') output_image = Raise e) ->
  step forward self batch batch_idx = (self', Raise e) /\
  content_image (perceptual_loss (step forward self batch batch_idx).1) = Some batch.
Proof.
  intros self' Hfail. unfold step. fold self'. split; [|done]. f_equal.
  destruct Hfail as [Hforward | (output_image & Hforward & Hloss)].
  - by rewrite Hforward.
  - rewrite Hforward. cbn [bind]. by rewrite Hloss.
Qed.

Lemma step_sets_content_image_before_failing_witness :
  step (fun _ _ => Raise (RuntimeError "shape mismatch")) example_task example_image 0
  = ({| model := model example_task;
        perceptual_loss := set_content_image (perceptual_loss example_task)
                             example_image |},
     Raise (RuntimeError "shape mismatch")).
Proof.
  apply (step_sets_content_image_before_failing
           (fun _ _ => Raise (RuntimeError "shape mismatch"))
           example_task example_image 0 (RuntimeError "shape mismatch")).
  left. reflexivity.
Defined.

(** X24. On a batch without an [INPUT] entry [training_step] raises
    [KeyError] at once: the base class is not called and the task is left
    as it was, whatever else the batch holds. *)
Theorem training_step_without_input `{Libraries} {R : Type}
    (super_training_step : StyleTransfer -> tensor -> Z -> StyleTransfer * result R)
    (self : StyleTransfer) (batch : gmap DefaultDataKeys tensor) (batch_idx : Z) :
  INPUT ∉ dom batch ->
  training_step super_training_step self batch batch_idx
  = (self, Raise (KeyError "input")).
Proof.
  intros Hmissing. apply not_elem_of_dom in Hmissing.
  unfold training_step, getitem. by rewrite Hmissing.
Qed.

Lemma training_step_without_input_witness :
  training_step Task_training_step example_task
    (<[TARGET := example_labels 0 1]> ∅) 0
  = (example_task, Raise (KeyError "input")).
Proof.
  apply (training_step_without_input Task_training_step example_task
           (<[TARGET := example_labels 0 1]> ∅) 0).
  rewrite dom_insert_L, dom_empty_L. intros Hin.
  apply elem_of_union in Hin as [Hin | Hin].
  - apply elem_of_singleton in Hin. discriminate Hin.
  - by apply elem_of_empty in Hin.
Defined.
